(** * CacheManager: a localStorage cache with deferred refresh

    Shallow embedding of [utils/CacheManager.ts] (react-caching sample) and
    the properties of its expiration policy, of its at-most-one-refresh
    guard and of its failure handling.

    The class is generic in the cached type [T]; at run time the values it
    handles are whatever [JSON.parse] and the fetch function produce, so the
    embedding works over JavaScript values.  The browser and library
    functions the class calls ([JSON.parse], [JSON.stringify],
    [new Date(v)], [Date.prototype.toISOString], date-fns [format]) are not
    part of the repository: they are the fields of the [Platform] class and
    every theorem holds for every platform.  [Module Ref] gives one concrete
    platform, used to run the code on explicit inputs. *)

From Stdlib Require Import ZArith String List Bool Ascii Lia.
From stdpp Require Import base gmap strings.

Set Warnings "-register-all".

Local Open Scope string_scope.
Local Open Scope list_scope.
Local Open Scope Z_scope.

(** ** JavaScript values *)

(** The values [JSON.parse] can return, plus [undefined] (the result of
    reading a property that is not there).  Numbers are the integer-valued
    ones; fractions, [-0], [NaN] and the infinities are outside the
    embedding. *)
Inductive JSValue : Type :=
| JUndefined
| JNull
| JBool (b : bool)
| JNumber (n : Z)
| JString (s : string)
| JArray (items : list JSValue)
| JObject (fields : list (string * JSValue)).

(** ECMAScript [ToBoolean]: the test made by [if (v)]. *)
Definition ToBoolean (v : JSValue) : bool :=
  match v with
  | JUndefined | JNull => false
  | JBool b => b
  | JNumber n => negb (n =? 0)
  | JString s => negb (String.eqb s "")
  | JArray _ | JObject _ => true
  end.

(** The exceptions the code meets.  [Reason r] is a value thrown by code
    supplied by the caller (a rejected fetch, a throwing observer). *)
Inductive Exn : Type :=
| SyntaxError
| TypeError
| RangeError
| Reason (r : string).

Inductive Result (A : Type) : Type :=
| Ok (a : A)
| Throw (e : Exn).
Arguments Ok {A} a.
Arguments Throw {A} e.

Fixpoint assoc (name : string) (fields : list (string * JSValue)) : JSValue :=
  match fields with
  | [] => JUndefined
  | (k, v) :: rest => if String.eqb k name then v else assoc name rest
  end.

(** Property read [v.name] for the two names the class reads,
    ["expiration"] and ["value"]: a [TypeError] on [null] and [undefined],
    the own property of an object, and [undefined] everywhere else (neither
    name is defined on a primitive wrapper or on an array). *)
Definition getProp (v : JSValue) (name : string) : Result JSValue :=
  match v with
  | JUndefined | JNull => Throw TypeError
  | JObject fields => Ok (assoc name fields)
  | _ => Ok JUndefined
  end.

(** ** Dates *)

(** A [Date] object: a time value in milliseconds since the epoch, or
    Invalid Date (time value [NaN]). *)
Inductive JSDate : Type :=
| ValidDate (t : Z)
| InvalidDate.

Definition maxTime : Z := 8640000000000000.

(** ECMAScript [TimeClip]: time values beyond 8.64e15 ms are not dates. *)
Definition TimeClip (t : Z) : JSDate :=
  if Z.abs t <=? maxTime then ValidDate t else InvalidDate.

(** date-fns [add(date, { seconds })]:
    [new Date(date.getTime() + seconds * 1000)]. *)
Definition add (date : JSDate) (seconds : Z) : JSDate :=
  match date with
  | ValidDate t => TimeClip (t + seconds * 1000)
  | InvalidDate => InvalidDate
  end.

(** [a > b] on two dates: the comparison of the time values, false as soon
    as one of them is [NaN]. *)
Definition date_gt (a b : JSDate) : bool :=
  match a, b with
  | ValidDate ta, ValidDate tb => tb <? ta
  | _, _ => false
  end.

(** ** The platform *)

Class Platform : Type := {
  (** [JSON.parse]; [None] is a [SyntaxError]. *)
  JSON_parse : string -> option JSValue;
  (** [JSON.stringify] on an object literal. *)
  JSON_stringify : JSValue -> string;
  (** [new Date(v)]. *)
  Date_of : JSValue -> JSDate;
  (** [toISOString] of a valid date, given its time value. *)
  toISOString : Z -> string;
  (** date-fns [format(d, "HH:mm:ss")] of a valid date. *)
  format_time : Z -> string;
  (** date-fns [format] of Invalid Date: [None] when it throws a
      [RangeError] (date-fns 2 and later), the string it returns
      otherwise. *)
  format_invalid : option string;
  (** Template-literal conversions [`${error}`] and [`${n}`]. *)
  Exn_toString : Exn -> string;
  Number_toString : Z -> string
}.

(** ** The instance and its environment *)

(** The fields of a [CacheManager].  [expirationSeconds] is a whole number
    of seconds, as the sample passes it (the result of [parseInt]).
    [onBackgroundRefresh] is the optional observer: applied to the fresh
    data it returns [None], or [Some e] when it throws [e].  [onLog] tells
    whether a log callback was supplied. *)
Record CacheManager : Type := {
  key : string;
  expirationSeconds : Z;
  refreshScheduled : bool;
  onBackgroundRefresh : option (JSValue -> option Exn);
  onLog : bool
}.

(** What the class reads and writes outside itself.  [now] is the clock
    read by [new Date()], in milliseconds; it is fixed during one
    synchronous run and moved by the environment between runs (of the
    readings of a run one only is used: the initial value of [expiration],
    line 60, is overwritten or never looked at).  [idleCallbacks] counts the
    refresh callbacks registered with [requestIdleCallbackFn] and not yet
    started, [fetchCalls] the invocations of [fetchFunction]; the other
    lists record the calls of the log callback, of the console and of the
    refresh observer, which are taken to return normally, the observer
    apart. *)
Record World : Type := {
  localStorage : gmap string string;
  now : Z;
  idleCallbacks : nat;
  fetchCalls : nat;
  onLogCalls : list string;
  consoleLog : list string;
  consoleError : list Exn;
  onBackgroundRefreshCalls : list JSValue
}.

Definition Machine : Type := CacheManager * World.

(** ** State and exceptions *)

(** A computation over a state [S] that returns or throws; the state
    reached at a [throw] is kept, as a [catch] block sees it. *)
Definition M (S A : Type) : Type := S -> Result A * S.

Definition ret {S A} (a : A) : M S A := fun s => (Ok a, s).

Definition throw {S A} (e : Exn) : M S A := fun s => (Throw e, s).

Definition bind {S A B} (m : M S A) (k : A -> M S B) : M S B :=
  fun s =>
    match m s with
    | (Ok a, s') => k a s'
    | (Throw e, s') => (Throw e, s')
    end.

Definition try_catch {S A} (body : M S A) (handler : Exn -> M S A) : M S A :=
  fun s =>
    match body s with
    | (Ok a, s') => (Ok a, s')
    | (Throw e, s') => handler e s'
    end.

(** [try { body } finally { final }], [final] neither returning a value nor
    jumping: it runs on both exits and the exit of [body] stands, unless
    [final] itself throws. *)
Definition try_finally {S A} (body : M S A) (final : M S unit) : M S A :=
  fun s =>
    match body s with
    | (r, s') =>
        match final s' with
        | (Ok _, s'') => (r, s'')
        | (Throw e, s'') => (Throw e, s'')
        end
    end.

Definition gets {S A} (f : S -> A) : M S A := fun s => (Ok (f s), s).

Definition modify {S} (f : S -> S) : M S unit := fun s => (Ok tt, f s).

Declare Scope js_scope.
Delimit Scope js_scope with js.
Notation "'let*' x ':=' c 'in' k" := (bind c (fun x => k))
  (at level 10, x name, c at level 100, k at level 200) : js_scope.
Notation "c ';;' k" := (bind c (fun _ => k))
  (at level 100, k at level 200, right associativity) : js_scope.
Local Open Scope js_scope.

(** A method of the instance called from a frame that has locals [L]. *)
Definition call {L A} (m : M Machine A) : M (L * Machine) A :=
  fun s =>
    match m (snd s) with
    | (r, mach) => (r, (fst s, mach))
    end.

Definition when {S} (c : bool) (m : M S unit) : M S unit :=
  if c then m else ret tt.

(** ** Primitive operations on the environment *)

Definition this {A} (field : CacheManager -> A) : M Machine A :=
  gets (fun m => field (fst m)).

Definition set_world (f : World -> World) : M Machine unit :=
  modify (fun m => (fst m, f (snd m))).

Definition with_refreshScheduled (b : bool) (cm : CacheManager) : CacheManager :=
  {| key := key cm;
     expirationSeconds := expirationSeconds cm;
     refreshScheduled := b;
     onBackgroundRefresh := onBackgroundRefresh cm;
     onLog := onLog cm |}.

Definition with_expirationSeconds (n : Z) (cm : CacheManager) : CacheManager :=
  {| key := key cm;
     expirationSeconds := n;
     refreshScheduled := refreshScheduled cm;
     onBackgroundRefresh := onBackgroundRefresh cm;
     onLog := onLog cm |}.

Definition set_this (f : CacheManager -> CacheManager) : M Machine unit :=
  modify (fun m => (f (fst m), snd m)).

Definition with_localStorage (f : gmap string string -> gmap string string)
  (w : World) : World :=
  {| localStorage := f (localStorage w);
     now := now w;
     idleCallbacks := idleCallbacks w;
     fetchCalls := fetchCalls w;
     onLogCalls := onLogCalls w;
     consoleLog := consoleLog w;
     consoleError := consoleError w;
     onBackgroundRefreshCalls := onBackgroundRefreshCalls w |}.

Definition with_now (t : Z) (w : World) : World :=
  {| localStorage := localStorage w;
     now := t;
     idleCallbacks := idleCallbacks w;
     fetchCalls := fetchCalls w;
     onLogCalls := onLogCalls w;
     consoleLog := consoleLog w;
     consoleError := consoleError w;
     onBackgroundRefreshCalls := onBackgroundRefreshCalls w |}.

Definition with_idleCallbacks (f : nat -> nat) (w : World) : World :=
  {| localStorage := localStorage w;
     now := now w;
     idleCallbacks := f (idleCallbacks w);
     fetchCalls := fetchCalls w;
     onLogCalls := onLogCalls w;
     consoleLog := consoleLog w;
     consoleError := consoleError w;
     onBackgroundRefreshCalls := onBackgroundRefreshCalls w |}.

Definition with_fetchCalls (f : nat -> nat) (w : World) : World :=
  {| localStorage := localStorage w;
     now := now w;
     idleCallbacks := idleCallbacks w;
     fetchCalls := f (fetchCalls w);
     onLogCalls := onLogCalls w;
     consoleLog := consoleLog w;
     consoleError := consoleError w;
     onBackgroundRefreshCalls := onBackgroundRefreshCalls w |}.

Definition with_onLogCalls (f : list string -> list string) (w : World) : World :=
  {| localStorage := localStorage w;
     now := now w;
     idleCallbacks := idleCallbacks w;
     fetchCalls := fetchCalls w;
     onLogCalls := f (onLogCalls w);
     consoleLog := consoleLog w;
     consoleError := consoleError w;
     onBackgroundRefreshCalls := onBackgroundRefreshCalls w |}.

Definition with_consoleLog (f : list string -> list string) (w : World) : World :=
  {| localStorage := localStorage w;
     now := now w;
     idleCallbacks := idleCallbacks w;
     fetchCalls := fetchCalls w;
     onLogCalls := onLogCalls w;
     consoleLog := f (consoleLog w);
     consoleError := consoleError w;
     onBackgroundRefreshCalls := onBackgroundRefreshCalls w |}.

Definition with_consoleError (f : list Exn -> list Exn) (w : World) : World :=
  {| localStorage := localStorage w;
     now := now w;
     idleCallbacks := idleCallbacks w;
     fetchCalls := fetchCalls w;
     onLogCalls := onLogCalls w;
     consoleLog := consoleLog w;
     consoleError := f (consoleError w);
     onBackgroundRefreshCalls := onBackgroundRefreshCalls w |}.

Definition with_onBackgroundRefreshCalls (f : list JSValue -> list JSValue)
  (w : World) : World :=
  {| localStorage := localStorage w;
     now := now w;
     idleCallbacks := idleCallbacks w;
     fetchCalls := fetchCalls w;
     onLogCalls := onLogCalls w;
     consoleLog := consoleLog w;
     consoleError := consoleError w;
     onBackgroundRefreshCalls := f (onBackgroundRefreshCalls w) |}.

(** [localStorage.getItem], [setItem] and [removeItem]; the store is taken
    to be reliable (no quota error). *)
Definition localStorage_getItem (k : string) : M Machine (option string) :=
  gets (fun m => localStorage (snd m) !! k).

Definition localStorage_setItem (k v : string) : M Machine unit :=
  set_world (with_localStorage (insert k v)).

Definition localStorage_removeItem (k : string) : M Machine unit :=
  set_world (with_localStorage (delete k)).

(** [new Date()]. *)
Definition new_Date : M Machine JSDate :=
  gets (fun m => ValidDate (now (snd m))).

Definition console_log (message : string) : M Machine unit :=
  set_world (with_consoleLog (fun l => l ++ [message])).

Definition console_error (error : Exn) : M Machine unit :=
  set_world (with_consoleError (fun l => l ++ [error])).

(** [requestIdleCallbackFn(callback)]: with the native facility or with the
    200 ms timer, the callback is registered to run later, once.  The class
    passes one callback only, the refresh closure of [scheduleRefresh]. *)
Definition requestIdleCallbackFn : M Machine unit :=
  set_world (with_idleCallbacks S).

(** The call [this.fetchFunction()]; the promise it returns settles later,
    see [FetchResult].  A fetch function that throws at once is a promise
    that is rejected: the [await] sees the same. *)
Definition fetchFunction : M Machine unit :=
  set_world (with_fetchCalls S).

(** How the promise of a fetch settles. *)
Inductive FetchResult : Type :=
| Resolved (data : JSValue)
| Rejected (error : Exn).

(** [await promise], once the promise has settled. *)
Definition await {S} (r : FetchResult) : M S JSValue :=
  match r with
  | Resolved data => ret data
  | Rejected error => throw error
  end.

(** ** The class *)

Section CacheManager.

Context {platform : Platform}.

(** [toISOString()] throws a [RangeError] on Invalid Date. *)
Definition Date_toISOString {S} (d : JSDate) : M S string :=
  match d with
  | ValidDate t => ret (toISOString t)
  | InvalidDate => throw RangeError
  end.

(** [format(d, "HH:mm:ss")]. *)
Definition format {S} (d : JSDate) : M S string :=
  match d with
  | ValidDate t => ret (format_time t)
  | InvalidDate =>
      match format_invalid with
      | Some s => ret s
      | None => throw RangeError
      end
  end.

(** [log(message)], lines 127-133. *)
Definition log (message : string) : M Machine unit :=
  let* hasOnLog := this onLog in
  if hasOnLog : bool
  then set_world (with_onLogCalls (fun l => l ++ [message]))
  else console_log message.

(** The object literal [{ expiration, value }] of [setCache]. *)
Definition cacheEntry (expiration : string) (value : JSValue) : JSValue :=
  JObject [("expiration", JString expiration); ("value", value)].

(** [setCache(data)], lines 91-99. *)
Definition setCache (data : JSValue) : M Machine unit :=
  let* today := new_Date in
  let* seconds := this expirationSeconds in
  let expirationTime := add today seconds in
  let* iso := Date_toISOString expirationTime in
  let* k := this key in
  localStorage_setItem k (JSON_stringify (cacheEntry iso data)) ;;
  let* hhmmss := format expirationTime in
  log ("Cache updated. New expiration: " +:+ hhmmss).

(** [scheduleRefresh()], lines 104-122: the guard, the flag and the
    registration of the callback. *)
Definition scheduleRefresh : M Machine unit :=
  let* scheduled := this refreshScheduled in
  if scheduled : bool then ret tt
  else
    set_this (with_refreshScheduled true) ;;
    requestIdleCallbackFn.

(** [this.onBackgroundRefresh?.(freshData)]. *)
Definition onBackgroundRefresh_call (freshData : JSValue) : M Machine unit :=
  let* observer := this onBackgroundRefresh in
  match observer with
  | None => ret tt
  | Some f =>
      set_world (with_onBackgroundRefreshCalls (fun l => l ++ [freshData])) ;;
      match f freshData with
      | None => ret tt
      | Some e => throw e
      end
  end.

(** The callback passed to [requestIdleCallbackFn], lines 108-121, up to
    its [await]: the scheduler takes it off its queue, it logs and calls
    the fetch function. *)
Definition refreshCallback_start : M Machine unit :=
  set_world (with_idleCallbacks Nat.pred) ;;
  log "Background refresh starting." ;;
  fetchFunction.

(** The same callback from its [await] on, when the fetch has settled
    with [r]. *)
Definition refreshCallback_resume (r : FetchResult) : M Machine unit :=
  try_finally
    (try_catch
       (let* freshData := await r in
        setCache freshData ;;
        log "Background refresh completed." ;;
        onBackgroundRefresh_call freshData)
       (fun error =>
          log ("Error during background refresh: " +:+ Exn_toString error) ;;
          console_error error))
    (set_this (with_refreshScheduled false)).

(** [updateExpiration(newExpirationSeconds)], lines 138-141. *)
Definition updateExpiration (newExpirationSeconds : Z) : M Machine unit :=
  set_this (with_expirationSeconds newExpirationSeconds) ;;
  log ("Expiration seconds updated to " +:+ Number_toString newExpirationSeconds).

(** The locals of [getData] that its [try] block assigns. *)
Record Locals : Type := {
  cachedValue : JSValue;
  expiration : JSDate
}.

Definition set_cachedValue (v : JSValue) : M (Locals * Machine) unit :=
  modify (fun s => ({| cachedValue := v; expiration := expiration (fst s) |}, snd s)).

Definition set_expiration (d : JSDate) : M (Locals * Machine) unit :=
  modify (fun s => ({| cachedValue := cachedValue (fst s); expiration := d |}, snd s)).

Definition local {A} (field : Locals -> A) : M (Locals * Machine) A :=
  gets (fun s => field (fst s)).

(** A block that declares locals. *)
Definition with_locals {A} (init : Locals) (body : M (Locals * Machine) A)
  : M Machine A :=
  fun m =>
    match body (init, m) with
    | (r, (_, m')) => (r, m')
    end.

(** [JSON.parse(text)] as a step that may throw. *)
Definition parse {S} (text : string) : M S JSValue :=
  match JSON_parse text with
  | Some v => ret v
  | None => throw SyntaxError
  end.

(** A property read as a step that may throw. *)
Definition prop {S} (v : JSValue) (name : string) : M S JSValue :=
  fun s => (getProp v name, s).

(** The body of the [try] of [getData], lines 64-67. *)
Definition getData_try (cacheItem : string) : M (Locals * Machine) unit :=
  let* cacheJSON := parse cacheItem in
  let* e := prop cacheJSON "expiration" in
  set_expiration (Date_of e) ;;
  let* v := prop cacheJSON "value" in
  set_cachedValue v ;;
  let* expiration := local expiration in
  let* hhmmss := format expiration in
  call (log ("Cache hit. Returning cached data. Expiration: " +:+ hhmmss)).

(** [if (cacheItem)] on the result of [getItem]: [null] and the empty
    string are falsy. *)
Definition truthy_item (cacheItem : option string) : option string :=
  match cacheItem with
  | Some s => if String.eqb s "" then None else Some s
  | None => None
  end.

(** Where a call of [getData] stands when it gives control back: it has
    returned (its promise is fulfilled), or it is suspended at
    [await this.fetchFunction()]. *)
Inductive Step : Type :=
| Return (v : JSValue)
| AwaitFetch.

(** [getData(reload)], lines 51-83, up to its [return] or its [await]. *)
Definition getData_start (reload : bool) : M Machine Step :=
  when reload
    (let* k := this key in
     localStorage_removeItem k ;;
     log "Reload requested. Cache cleared.") ;;
  let* k := this key in
  let* cacheItem := localStorage_getItem k in
  let* today := new_Date in
  with_locals {| cachedValue := JNull; expiration := today |}
    (match truthy_item cacheItem with
     | Some s =>
         try_catch (getData_try s)
           (fun _ => call (log "Invalid cache found."))
     | None => ret tt
     end ;;
     let* cachedValue := local cachedValue in
     if ToBoolean cachedValue then
       let* today := call new_Date in
       let* expiration := local expiration in
       when (date_gt today expiration)
         (let* hhmmss := format expiration in
          call (log ("Cache expired (expired at: " +:+ hhmmss
                     +:+ "). Scheduling background refresh.")) ;;
          call scheduleRefresh) ;;
       ret (Return cachedValue)
     else
       call fetchFunction ;;
       ret AwaitFetch).

(** [getData], lines 83-85, from its [await] on, when the fetch has settled
    with [r]: a [Throw] is the rejection of the promise of [getData]. *)
Definition getData_resume (r : FetchResult) : M Machine JSValue :=
  let* freshData := await r in
  setCache freshData ;;
  ret freshData.

End CacheManager.

(** ** A reference platform *)

(** One concrete [Platform]: compact JSON text as [JSON.stringify] writes
    it and a parser for it, and the ISO 8601 form of dates that
    [toISOString] writes.  It covers the values of [JSValue] and, for
    [new Date(string)], the strings that [toISOString] produces; the other
    date formats a browser accepts are Invalid Date here.  [format] renders
    in UTC and throws on Invalid Date, as date-fns 2 does. *)
Module Ref.

Definition digit (n : Z) : ascii := ascii_of_nat (48 + Z.to_nat n).

(** The last [width] decimal digits of [n], for [0 <= n]. *)
Fixpoint digits (width : nat) (n : Z) (acc : string) : string :=
  match width with
  | O => acc
  | S width' => digits width' (n / 10) (String (digit (n mod 10)) acc)
  end.

(** [n] in decimal, as [JSON.stringify] and a template literal write an
    integer (below 1e21). *)
Definition decimal (n : Z) : string :=
  let width := S (Z.to_nat (Z.log2 (Z.abs n))) in
  let fix strip (s : string) : string :=
    match s with
    | String "0" (String _ _ as rest) => strip rest
    | _ => s
    end in
  let body := strip (digits width (Z.abs n) "") in
  if n <? 0 then String "-" body else body.

Definition hex_digit (n : Z) : ascii :=
  if n <? 10 then digit n else ascii_of_nat (87 + Z.to_nat n).

Definition code (c : ascii) : Z := Z.of_nat (nat_of_ascii c).

(** The double quote, character 34. *)
Definition dquote : ascii := Eval compute in ascii_of_nat 34.

(** The escapes of [JSON.stringify] inside a string literal. *)
Fixpoint quote_chars (s : string) : string :=
  match s with
  | EmptyString => EmptyString
  | String c rest =>
      let tail := quote_chars rest in
      let n := code c in
      if n =? 34 then String "\" (String dquote tail)
      else if n =? 92 then String "\" (String "\" tail)
      else if n =? 8 then String "\" (String "b" tail)
      else if n =? 12 then String "\" (String "f" tail)
      else if n =? 10 then String "\" (String "n" tail)
      else if n =? 13 then String "\" (String "r" tail)
      else if n =? 9 then String "\" (String "t" tail)
      else if n <? 32 then
        String "\" (String "u" (String "0" (String "0"
          (String (hex_digit (n / 16)) (String (hex_digit (n mod 16)) tail)))))
      else String c tail
  end.

Definition quote (s : string) : string :=
  String dquote (quote_chars s +:+ String dquote EmptyString).

Definition join (parts : list string) : string :=
  match parts with
  | [] => ""
  | p :: rest => fold_left (fun acc q => acc +:+ "," +:+ q) rest p
  end.

(** [JSON.stringify] of a value nested in another: [None] is
    [undefined]. *)
Fixpoint stringify (v : JSValue) : option string :=
  match v with
  | JUndefined => None
  | JNull => Some "null"
  | JBool true => Some "true"
  | JBool false => Some "false"
  | JNumber n => Some (decimal n)
  | JString s => Some (quote s)
  | JArray items =>
      Some ("[" +:+ join (map (fun item =>
                                 match stringify item with
                                 | Some s => s
                                 | None => "null"
                                 end) items) +:+ "]")
  | JObject fields =>
      let fix members (fs : list (string * JSValue)) : list string :=
        match fs with
        | [] => []
        | (k, x) :: rest =>
            match stringify x with
            | Some s => (quote k +:+ ":" +:+ s) :: members rest
            | None => members rest
            end
        end in
      Some ("{" +:+ join (members fields) +:+ "}")
  end.

Definition JSON_stringify (v : JSValue) : string :=
  match stringify v with
  | Some s => s
  | None => "undefined"
  end.

Fixpoint skip_ws (s : string) : string :=
  match s with
  | String c rest =>
      let n := code c in
      if (n =? 32) || (n =? 9) || (n =? 10) || (n =? 13) then skip_ws rest else s
  | EmptyString => s
  end.

Definition is_digit (c : ascii) : bool := (48 <=? code c) && (code c <=? 57).

Fixpoint read_digits (s : string) (acc : Z) (count : nat) : Z * nat * string :=
  match s with
  | String c rest =>
      if is_digit c then read_digits rest (acc * 10 + (code c - 48)) (S count)
      else (acc, count, s)
  | EmptyString => (acc, count, s)
  end.

(** An integer literal of JSON: no leading zero, no fraction, no
    exponent. *)
Definition read_number (s : string) : option (JSValue * string) :=
  let '(negative, body) :=
    match s with
    | String "-" rest => (true, rest)
    | _ => (false, s)
    end in
  match body with
  | String "0" rest =>
      match rest with
      | String c _ =>
          if is_digit c || (code c =? 46) || (code c =? 101) || (code c =? 69)
          then None else Some (JNumber 0, rest)
      | EmptyString => Some (JNumber 0, rest)
      end
  | _ =>
      match read_digits body 0 O with
      | (_, O, _) => None
      | (n, _, rest) =>
          match rest with
          | String c _ =>
              if (code c =? 46) || (code c =? 101) || (code c =? 69) then None
              else Some (JNumber (if negative : bool then - n else n), rest)
          | EmptyString => Some (JNumber (if negative : bool then - n else n), rest)
          end
      end
  end.

Definition hex_value (c : ascii) : option Z :=
  let n := code c in
  if (48 <=? n) && (n <=? 57) then Some (n - 48)
  else if (97 <=? n) && (n <=? 102) then Some (n - 87)
  else if (65 <=? n) && (n <=? 70) then Some (n - 55)
  else None.

(** The inside of a string literal, up to its closing quote. *)
Fixpoint read_string (s : string) : option (string * string) :=
  match s with
  | EmptyString => None
  | String c rest =>
      let n := code c in
      if n =? 34 then Some (EmptyString, rest)
      else if n <? 32 then None
      else if n =? 92 then
        match rest with
        | String e rest' =>
            let simple (c' : ascii) :=
              match read_string rest' with
              | Some (body, out) => Some (String c' body, out)
              | None => None
              end in
            let m := code e in
            if m =? 34 then simple e
            else if m =? 92 then simple e
            else if m =? 47 then simple e
            else if m =? 98 then simple (ascii_of_nat 8)
            else if m =? 102 then simple (ascii_of_nat 12)
            else if m =? 110 then simple (ascii_of_nat 10)
            else if m =? 114 then simple (ascii_of_nat 13)
            else if m =? 116 then simple (ascii_of_nat 9)
            else if m =? 117 then
              match rest' with
              | String "0" (String "0" (String h (String l rest''))) =>
                  match hex_value h, hex_value l, read_string rest'' with
                  | Some a, Some b, Some (body, out) =>
                      Some (String (ascii_of_nat (Z.to_nat (a * 16 + b))) body, out)
                  | _, _, _ => None
                  end
              | _ => None
              end
            else None
        | EmptyString => None
        end
      else
        match read_string rest with
        | Some (body, out) => Some (String c body, out)
        | None => None
        end
  end.

Fixpoint expect (word s : string) : option string :=
  match word, s with
  | EmptyString, _ => Some s
  | String a word', String b s' => if Ascii.eqb a b then expect word' s' else None
  | String _ _, EmptyString => None
  end.

(** [obj[k] = v] while an object is built: a repeated key keeps its place
    and takes the last value. *)
Fixpoint set_field (k : string) (v : JSValue) (fields : list (string * JSValue))
  : list (string * JSValue) :=
  match fields with
  | [] => [(k, v)]
  | (k', v') :: rest =>
      if String.eqb k' k then (k', v) :: rest else (k', v') :: set_field k v rest
  end.

Fixpoint parse_value (fuel : nat) (s : string) : option (JSValue * string) :=
  match fuel with
  | O => None
  | S fuel' =>
      match skip_ws s with
      | EmptyString => None
      | String c rest =>
          let n := code c in
          if n =? 110 then option_map (pair JNull) (expect "ull" rest)
          else if n =? 116 then option_map (pair (JBool true)) (expect "rue" rest)
          else if n =? 102 then option_map (pair (JBool false)) (expect "alse" rest)
          else if n =? 34 then
            match read_string rest with
            | Some (body, out) => Some (JString body, out)
            | None => None
            end
          else if n =? 91 then
            match skip_ws rest with
            | String "]" out => Some (JArray [], out)
            | _ =>
                (fix elements (k : nat) (s : string) (acc : list JSValue) :=
                   match k with
                   | O => None
                   | S k' =>
                       match parse_value fuel' s with
                       | Some (v, out) =>
                           match skip_ws out with
                           | String "," out' => elements k' out' (acc ++ [v])
                           | String "]" out' => Some (JArray (acc ++ [v]), out')
                           | _ => None
                           end
                       | None => None
                       end
                   end) fuel' rest []
            end
          else if n =? 123 then
            match skip_ws rest with
            | String "}" out => Some (JObject [], out)
            | _ =>
                (fix members (k : nat) (s : string) (acc : list (string * JSValue)) :=
                   match k with
                   | O => None
                   | S k' =>
                       match expect (String dquote EmptyString) (skip_ws s) with
                       | Some s1 =>
                           match read_string s1 with
                           | Some (name, s2) =>
                               match skip_ws s2 with
                               | String ":" s3 =>
                                   match parse_value fuel' s3 with
                                   | Some (v, out) =>
                                       match skip_ws out with
                                       | String "," out' =>
                                           members k' out' (set_field name v acc)
                                       | String "}" out' =>
                                           Some (JObject (set_field name v acc), out')
                                       | _ => None
                                       end
                                   | None => None
                                   end
                               | _ => None
                               end
                           | None => None
                           end
                       | None => None
                       end
                   end) fuel' rest []
            end
          else read_number (String c rest)
      end
  end.

Definition JSON_parse (s : string) : option JSValue :=
  match parse_value (S (String.length s)) s with
  | Some (v, rest) =>
      match skip_ws rest with
      | EmptyString => Some v
      | _ => None
      end
  | None => None
  end.

(** *** Dates *)

Definition msPerDay : Z := 86400000.

(** Year, month and day of a day number counted from 1970-01-01
    (proleptic Gregorian calendar). *)
Definition civil_from_days (days : Z) : Z * Z * Z :=
  let z := days + 719468 in
  let era := z / 146097 in
  let doe := z - era * 146097 in
  let yoe := (doe - doe / 1460 + doe / 36524 - doe / 146096) / 365 in
  let doy := doe - (365 * yoe + yoe / 4 - yoe / 100) in
  let mp := (5 * doy + 2) / 153 in
  let d := doy - (153 * mp + 2) / 5 + 1 in
  let m := if mp <? 10 then mp + 3 else mp - 9 in
  (yoe + era * 400 + (if m <=? 2 then 1 else 0), m, d).

Definition days_from_civil (y m d : Z) : Z :=
  let y' := if m <=? 2 then y - 1 else y in
  let era := y' / 400 in
  let yoe := y' - era * 400 in
  let doy := (153 * (if 2 <? m then m - 3 else m + 9) + 2) / 5 + d - 1 in
  let doe := yoe * 365 + yoe / 4 - yoe / 100 + doy in
  era * 146097 + doe - 719468.

Definition two (n : Z) : string := digits 2 n "".

Definition hhmmss (ms : Z) : string :=
  two (ms / 3600000) +:+ ":" +:+ two (ms / 60000 mod 60) +:+ ":"
  +:+ two (ms / 1000 mod 60).

(** [YYYY-MM-DDTHH:mm:ss.sssZ], the year written with a sign and six digits
    outside 0000-9999. *)
Definition toISOString (t : Z) : string :=
  let ms := t mod msPerDay in
  let '(y, m, d) := civil_from_days (t / msPerDay) in
  let year :=
    if (0 <=? y) && (y <=? 9999) then digits 4 y ""
    else (if y <? 0 then "-" else "+") +:+ digits 6 (Z.abs y) "" in
  year +:+ "-" +:+ two m +:+ "-" +:+ two d +:+ "T" +:+ hhmmss ms
  +:+ "." +:+ digits 3 (ms mod 1000) "" +:+ "Z".

(** date-fns [format(d, "HH:mm:ss")], the time zone being UTC. *)
Definition format_time (t : Z) : string := hhmmss (t mod msPerDay).

(** [width] digits at the head of [s]. *)
Fixpoint read_fixed (width : nat) (s : string) (acc : Z) : option (Z * string) :=
  match width, s with
  | O, _ => Some (acc, s)
  | S width', String c rest =>
      if is_digit c then read_fixed width' rest (acc * 10 + (code c - 48))
      else None
  | S _, EmptyString => None
  end.

(** The seven numbers of [YYYY-MM-DDTHH:mm:ss.sssZ]. *)
Definition read_fields (s : string) : option (Z * Z * Z * Z * Z * Z * Z) :=
  '(y, r) ← match s with
            | String "+" rest => read_fixed 6 rest 0
            | String "-" rest =>
                '(y, r) ← read_fixed 6 rest 0; Some (- y, r)
            | _ => read_fixed 4 s 0
            end;
  r ← expect "-" r;
  '(m, r) ← read_fixed 2 r 0;
  r ← expect "-" r;
  '(d, r) ← read_fixed 2 r 0;
  r ← expect "T" r;
  '(hh, r) ← read_fixed 2 r 0;
  r ← expect ":" r;
  '(mm, r) ← read_fixed 2 r 0;
  r ← expect ":" r;
  '(ss, r) ← read_fixed 2 r 0;
  r ← expect "." r;
  '(sss, r) ← read_fixed 3 r 0;
  if String.eqb r "Z" then Some (y, m, d, hh, mm, ss, sss) else None.

(** [Date.parse] on the form written by [toISOString]: the fields are
    read, and the date is kept when it is in range and is written back as
    the same string. *)
Definition Date_parse (s : string) : JSDate :=
  match read_fields s with
  | Some (y, m, d, hh, mm, ss, sss) =>
      let t := days_from_civil y m d * msPerDay
               + hh * 3600000 + mm * 60000 + ss * 1000 + sss in
      match TimeClip t with
      | ValidDate t' =>
          if String.eqb (toISOString t') s then ValidDate t' else InvalidDate
      | InvalidDate => InvalidDate
      end
  | None => InvalidDate
  end.

(** [new Date(v)]: a string is parsed, the other primitives go through
    [ToNumber] and [TimeClip].  Arrays and objects, which a browser first
    converts to a string, are Invalid Date here. *)
Definition Date_of (v : JSValue) : JSDate :=
  match v with
  | JString s => Date_parse s
  | JNumber n => TimeClip n
  | JNull => ValidDate 0
  | JBool b => ValidDate (if b then 1 else 0)
  | JUndefined | JArray _ | JObject _ => InvalidDate
  end.

Definition Exn_toString (e : Exn) : string :=
  match e with
  | SyntaxError => "SyntaxError"
  | TypeError => "TypeError"
  | RangeError => "RangeError"
  | Reason r => r
  end.

#[export] Instance platform : Platform :=
  Build_Platform JSON_parse JSON_stringify Date_of toISOString format_time
    None Exn_toString decimal.

End Ref.

(** ** What a call finds in the store *)

(** The expiration time, in milliseconds, of an entry written when the
    clock reads [writeTime] with a TTL of [seconds]. *)
Definition deadline (writeTime seconds : Z) : Z := writeTime + seconds * 1000.

Section Stored.

Context {platform : Platform}.

(** What the [try] block of [getData] assigns to [expiration] and
    [cachedValue] when it reaches line 66 on the string [cacheItem]:
    [None] when [JSON.parse] or a property read throws before that. *)
Definition entry_of (cacheItem : string) : option (JSDate * JSValue) :=
  match JSON_parse cacheItem with
  | Some cacheJSON =>
      match getProp cacheJSON "expiration", getProp cacheJSON "value" with
      | Ok e, Ok v => Some (Date_of e, v)
      | _, _ => None
      end
  | None => None
  end.

(** The entry that [getData] of instance [cm] reads in world [w]. *)
Definition stored (cm : CacheManager) (w : World) : option (JSDate * JSValue) :=
  match truthy_item (localStorage w !! key cm) with
  | Some cacheItem => entry_of cacheItem
  | None => None
  end.

(** The string that [setCache] stores for [data] when the clock reads
    [writeTime] and the TTL is [seconds]. *)
Definition written (writeTime seconds : Z) (data : JSValue) : string :=
  JSON_stringify (cacheEntry (toISOString (deadline writeTime seconds)) data).

(** The world after [log(message)] of instance [cm]. *)
Definition logged (cm : CacheManager) (message : string) (w : World) : World :=
  if onLog cm
  then with_onLogCalls (fun l => l ++ [message]) w
  else with_consoleLog (fun l => l ++ [message]) w.

(** [format(d, "HH:mm:ss")] as a value: [None] when it throws. *)
Definition format_opt (d : JSDate) : option string :=
  match d with
  | ValidDate t => Some (format_time t)
  | InvalidDate => format_invalid
  end.

(** The world after lines 62-71 of [getData]: the message logged by the
    [try] block or by its [catch]. *)
Definition after_lookup (cm : CacheManager) (w : World) : World :=
  match truthy_item (localStorage w !! key cm) with
  | None => w
  | Some cacheItem =>
      match entry_of cacheItem with
      | Some (d, _) =>
          match format_opt d with
          | Some hhmmss =>
              logged cm ("Cache hit. Returning cached data. Expiration: " +:+ hhmmss) w
          | None => logged cm "Invalid cache found." w
          end
      | None => logged cm "Invalid cache found." w
      end
  end.

(** The state after lines 76-77 of [getData], once the lookup is done and
    the entry, of expiration time [t], was found expired. *)
Definition after_stale (cm : CacheManager) (t : Z) (w : World) : Machine :=
  let w' := logged cm ("Cache expired (expired at: " +:+ format_time t
                       +:+ "). Scheduling background refresh.")
              (after_lookup cm w) in
  if refreshScheduled cm then (cm, w')
  else (with_refreshScheduled true cm, with_idleCallbacks S w').

(** A whole call of [getData]: when it awaits the fetch, the promise
    settles with [r] while the clock reads [t], and the call resumes in the
    state it left. *)
Definition getData_run (reload : bool) (r : FetchResult) (t : Z)
  : M Machine JSValue :=
  fun m =>
    match getData_start reload m with
    | (Ok (Return v), m') => (Ok v, m')
    | (Ok AwaitFetch, (cm, w)) => getData_resume r (cm, with_now t w)
    | (Throw e, m') => (Throw e, m')
    end.

(** Two facts about the platform that a theorem on reading back a written
    entry assumes for that entry: [JSON.stringify] writes it as a text that
    is not empty and that [JSON.parse] reads back as the same value (the
    value is JSON-serializable), and [new Date] reads the time that
    [toISOString] wrote. *)
Definition JSON_roundtrip (v : JSValue) : Prop :=
  JSON_stringify v <> "" /\ JSON_parse (JSON_stringify v) = Some v.

Definition ISO_roundtrip (t : Z) : Prop :=
  Date_of (JString (toISOString t)) = ValidDate t.

End Stored.

(** ** The scenario of the specification *)

(** TTL = 5 s, an empty store, the clock at 0, on the reference platform:
    the first [getData(false)] fetches [V1] and stores it with expiration
    5000 ms. *)
Module Scenario.

Definition cm : CacheManager :=
  {| key := "MyDataCache";
     expirationSeconds := 5;
     refreshScheduled := false;
     onBackgroundRefresh := Some (fun _ => None);
     onLog := true |}.

Definition world0 : World :=
  {| localStorage := ∅;
     now := 0;
     idleCallbacks := 0;
     fetchCalls := 0;
     onLogCalls := [];
     consoleLog := [];
     consoleError := [];
     onBackgroundRefreshCalls := [] |}.

Definition V1 : JSValue := JString "V1".

Definition V2 : JSValue := JString "V2".

(** A value of the type the sample caches, [IMyData[]]. *)
Definition myData : JSValue :=
  JArray [JObject [("id", JNumber 1); ("value", JString "My Data: ok")]].

(** The state after [setCache(myData)] at time 0. *)
Definition wrote_myData : Machine :=
  snd (setCache (platform := Ref.platform) myData (cm, world0)).

(** The same state seen when the clock reads [t]. *)
Definition at_time (t : Z) (m : Machine) : Machine :=
  (fst m, with_now t (snd m)).

(** The state after [setCache(V1)] at time 0. *)
Definition wrote : Machine :=
  snd (setCache (platform := Ref.platform) V1 (cm, world0)).

(** The state after the first call, whose fetch resolves with [V1] at
    time 0. *)
Definition first : Machine :=
  snd (getData_run (platform := Ref.platform) false (Resolved V1) 0 (cm, world0)).

(** The same instance with a refresh pending. *)
Definition pending (m : Machine) : Machine :=
  (with_refreshScheduled true (fst m), snd m).

(** The third call, at time 6000, which finds the entry expired. *)
Definition third : Machine :=
  snd (getData_start (platform := Ref.platform) false (at_time 6000 first)).

(** The refresh it scheduled: the callback starts at time 6200 and its
    fetch settles with [r] at time 7000. *)
Definition refreshed (r : FetchResult) : Machine :=
  snd (refreshCallback_resume (platform := Ref.platform) r
         (at_time 7000
            (snd (refreshCallback_start (at_time 6200 third))))).

(** A state whose store holds the string [s] under the key. *)
Definition holding (s : string) (t : Z) : Machine :=
  (cm, with_now t (with_localStorage (insert "MyDataCache" s) world0)).

(** The JSON text of an entry, from the texts of its two fields. *)
Definition entry_text (expiration value : string) : string :=
  "{" +:+ Ref.quote "expiration" +:+ ":" +:+ expiration +:+ ","
  +:+ Ref.quote "value" +:+ ":" +:+ value +:+ "}".

(** The text stored by the first call. *)
Definition V1_text : string :=
  entry_text (Ref.quote "1970-01-01T00:00:05.000Z") (Ref.quote "V1").

(** An unexpired entry whose value is the number 0, at time 1000. *)
Definition zero : Machine :=
  holding (entry_text (Ref.quote "2999-01-01T00:00:00.000Z") "0") 1000.

(** An entry whose value is [V1] and whose expiration is no date, at
    time 0. *)
Definition undated : Machine :=
  holding (entry_text (Ref.quote "tomorrow") (Ref.quote "V1")) 0.

(** A string that is not JSON, at time 1000. *)
Definition garbage : Machine := holding "{oops" 1000.

End Scenario.

(** ** Whole runs and interleavings *)

Section Runs.

Context {platform : Platform}.

(** [new CacheManager(key, expirationSeconds, fetchFunction,
    onBackgroundRefresh, onLog)], lines 37-45: the parameter properties
    and the initializer of [refreshScheduled]. *)
Definition new_CacheManager (key : string) (expirationSeconds : Z)
  (onBackgroundRefresh : option (JSValue -> option Exn)) (onLog : bool)
  : CacheManager :=
  {| key := key;
     expirationSeconds := expirationSeconds;
     refreshScheduled := false;
     onBackgroundRefresh := onBackgroundRefresh;
     onLog := onLog |}.

(** What the observer of [cm] does with [freshData]: [None] when there is
    no observer or when it returns, [Some e] when it throws [e]. *)
Definition observer_result (cm : CacheManager) (freshData : JSValue)
  : option Exn :=
  match onBackgroundRefresh cm with
  | Some f => f freshData
  | None => None
  end.

(** The record of the observer's calls after one call more, if [cm] has an
    observer. *)
Definition observed (cm : CacheManager) (freshData : JSValue)
  (calls : list JSValue) : list JSValue :=
  match onBackgroundRefresh cm with
  | Some _ => calls ++ [freshData]
  | None => calls
  end.

(** A scheduled refresh, run: the scheduler starts the callback while the
    clock reads [t1] and the fetch it awaits settles with [r] while the
    clock reads [t2]. *)
Definition refresh_run (t1 t2 : Z) (r : FetchResult) : M Machine unit :=
  set_world (with_now t1) ;;
  refreshCallback_start ;;
  set_world (with_now t2) ;;
  refreshCallback_resume r.

(** An instance in its environment, with the calls of [getData] that are
    suspended at their fetch and the refresh callbacks that have started
    and are suspended at theirs. *)
Record System : Type := {
  machine : Machine;
  awaiting : nat;
  running : nat
}.

(** What can happen next: a caller calls [getData] or [updateExpiration],
    the fetch of a suspended call or of a running callback settles, the
    scheduler starts a registered callback, the clock moves, other code
    writes the store. *)
Inductive Event : Type :=
| CallGetData (reload : bool)
| FetchSettled (r : FetchResult)
| CallUpdateExpiration (n : Z)
| IdleCallback
| RefreshSettled (r : FetchResult)
| ClockMoves (t : Z)
| StoreWritten (f : gmap string string -> gmap string string).

(** One event; [None] when it cannot happen (no call is suspended, no
    callback is registered or running). *)
Definition step (ev : Event) (s : System) : option System :=
  match ev with
  | CallGetData reload =>
      match getData_start reload (machine s) with
      | (Ok AwaitFetch, m) =>
          Some {| machine := m; awaiting := S (awaiting s); running := running s |}
      | (_, m) =>
          Some {| machine := m; awaiting := awaiting s; running := running s |}
      end
  | FetchSettled r =>
      match awaiting s with
      | O => None
      | S n =>
          Some {| machine := snd (getData_resume r (machine s));
                  awaiting := n; running := running s |}
      end
  | CallUpdateExpiration n =>
      Some {| machine := snd (updateExpiration n (machine s));
              awaiting := awaiting s; running := running s |}
  | IdleCallback =>
      match idleCallbacks (snd (machine s)) with
      | O => None
      | S _ =>
          Some {| machine := snd (refreshCallback_start (machine s));
                  awaiting := awaiting s; running := S (running s) |}
      end
  | RefreshSettled r =>
      match running s with
      | O => None
      | S n =>
          Some {| machine := snd (refreshCallback_resume r (machine s));
                  awaiting := awaiting s; running := n |}
      end
  | ClockMoves t =>
      Some {| machine := (fst (machine s), with_now t (snd (machine s)));
              awaiting := awaiting s; running := running s |}
  | StoreWritten f =>
      Some {| machine := (fst (machine s), with_localStorage f (snd (machine s)));
              awaiting := awaiting s; running := running s |}
  end.

Fixpoint run (evs : list Event) (s : System) : option System :=
  match evs with
  | [] => Some s
  | ev :: rest =>
      match step ev s with
      | Some s' => run rest s'
      | None => None
      end
  end.

(** The refreshes of [s] that are outstanding: registered and not started,
    or started and not finished. *)
Definition outstanding (s : System) : nat :=
  (idleCallbacks (snd (machine s)) + running s)%nat.

(** What an operation leaves alone, from [m] to [m']: the key, the
    observer and the log callback of the instance, the clock, and every
    entry of the store under another key. *)
Definition frame (m m' : Machine) : Prop :=
  key (fst m') = key (fst m) /\
  onBackgroundRefresh (fst m') = onBackgroundRefresh (fst m) /\
  onLog (fst m') = onLog (fst m) /\
  now (snd m') = now (snd m) /\
  forall k, k <> key (fst m) ->
            localStorage (snd m') !! k = localStorage (snd m) !! k.

(** The sink that [m] does not log to is as it was in [m']. *)
Definition other_sink_untouched (m m' : Machine) : Prop :=
  if onLog (fst m)
  then consoleLog (snd m') = consoleLog (snd m)
  else onLogCalls (snd m') = onLogCalls (snd m).

(** The world after the [catch] block of the refresh callback, lines
    115-118, entered with [error] in world [w]. *)
Definition refresh_failed (cm : CacheManager) (error : Exn) (w : World) : World :=
  with_consoleError (fun l => l ++ [error])
    (logged cm ("Error during background refresh: " +:+ Exn_toString error) w).

(** The world after a [setCache(data)] that succeeds in world [w]. *)
Definition cached (cm : CacheManager) (data : JSValue) (w : World) : World :=
  logged cm ("Cache updated. New expiration: "
             +:+ format_time (deadline (now w) (expirationSeconds cm)))
    (with_localStorage
       (insert (key cm) (written (now w) (expirationSeconds cm) data)) w).

Definition is_object (v : JSValue) : bool :=
  match v with
  | JObject _ => true
  | _ => false
  end.

End Runs.

(** ** The component that uses the class *)

(** [components/Caching.tsx], the parts that read the store or call the
    class outside React's own machinery. *)
Section Caching.

Context {platform : Platform}.

Definition CACHE_KEY : string := "MyDataCache".

(** [addLog(message)], lines 38-41, which is also the [onLog] callback of
    the instance: one call more of the log callback. *)
Definition addLog (message : string) : M Machine unit :=
  set_world (with_onLogCalls (fun l => l ++ [message])).

(** [updateExpirationDisplay()], lines 43-56; the result is the string
    given to [setExpirationDisplay], which every path calls once. *)
Definition updateExpirationDisplay : M Machine string :=
  let* cacheItem := localStorage_getItem CACHE_KEY in
  match truthy_item cacheItem with
  | Some s =>
      try_catch
        (let* cacheJSON := parse s in
         let* e := prop cacheJSON "expiration" in
         let exp := Date_of e in
         format exp)
        (fun _ => ret "Invalid")
  | None => ret "Not set"
  end.

(** The effect run when the component mounts and when the instance is
    replaced, lines 75-78, up to the await inside [getData]. *)
Definition mountEffect_start : M Machine Step :=
  localStorage_removeItem CACHE_KEY ;;
  addLog "Previous cache cleared on page load." ;;
  getData_start false.

End Caching.

(** ** Runs on the reference platform *)

Module Tour.

Definition V1 : JSValue := JString "V1".

Definition V2 : JSValue := JString "V2".

(** The instance of the component: TTL 5 s, an observer that returns, a
    log callback. *)
Definition cm : CacheManager :=
  new_CacheManager "MyDataCache" 5 (Some (fun _ => None)) true.


(** An instance whose TTL, 1e13 s, takes every expiration out of the
    range of dates. *)
Definition cm_forever : CacheManager :=
  new_CacheManager "MyDataCache" 10000000000000 None false.

Definition world (store : gmap string string) (t : Z) : World :=
  {| localStorage := store;
     now := t;
     idleCallbacks := 0;
     fetchCalls := 0;
     onLogCalls := [];
     consoleLog := [];
     consoleError := [];
     onBackgroundRefreshCalls := [] |}.

(** The store after [setCache(V1)] at time 0: the entry expires at
    5000. *)
Definition store_V1 : gmap string string :=
  localStorage (snd (snd (setCache (platform := Ref.platform) V1 (cm, world ∅ 0)))).

(** A store with the text [s] under the key and an entry under another
    key. *)
Definition store_of (s : string) : gmap string string :=
  <["MyDataCache" := s]> (<["other" := "kept"]> ∅).

(** The state after [setCache(V1)] at time 0. *)
Definition wrote : Machine :=
  snd (setCache (platform := Ref.platform) V1 (cm, world ∅ 0)).

Definition events : list Event :=
  [CallGetData false; FetchSettled (Resolved V1); ClockMoves 6000;
   CallGetData false; CallGetData false; CallUpdateExpiration 60;
   IdleCallback; CallGetData true; StoreWritten (insert "other" "text");
   RefreshSettled (Resolved V2); FetchSettled (Rejected (Reason "offline"));
   ClockMoves 100000; CallGetData false; CallGetData false].

Definition start : System :=
  {| machine := (cm, world ∅ 0); awaiting := 0; running := 0 |}.

(** The system after [events]. *)
Definition finish : System :=
  match run (platform := Ref.platform) events start with
  | Some s => s
  | None => start
  end.

End Tour.

(** * Properties *)

Section Properties.

Context {platform : Platform}.

Lemma log_run (message : string) (cm : CacheManager) (w : World) :
  log message (cm, w) = (Ok tt, (cm, logged cm message w)).
Proof.
  unfold log, logged, bind, this, gets, console_log, set_world, modify; simpl.
  destruct (onLog cm); reflexivity.
Qed.

Lemma logged_localStorage cm message w :
  localStorage (logged cm message w) = localStorage w.
Proof. unfold logged; destruct (onLog cm); reflexivity. Qed.

Lemma logged_now cm message w : now (logged cm message w) = now w.
Proof. unfold logged; destruct (onLog cm); reflexivity. Qed.

Lemma logged_idleCallbacks cm message w :
  idleCallbacks (logged cm message w) = idleCallbacks w.
Proof. unfold logged; destruct (onLog cm); reflexivity. Qed.

Lemma logged_fetchCalls cm message w :
  fetchCalls (logged cm message w) = fetchCalls w.
Proof. unfold logged; destruct (onLog cm); reflexivity. Qed.

Ltac unfold_M :=
  unfold this, set_this, set_world, call, when, try_catch, try_finally, await,
    bind, ret, throw, gets, modify.

Lemma bind_run {S A B} (m : M S A) (k : A -> M S B) (s : S) :
  bind m k s = match m s with
               | (Ok a, s') => k a s'
               | (Throw e, s') => (Throw e, s')
               end.
Proof. reflexivity. Qed.

Lemma format_run {S} (d : JSDate) (s : S) :
  format d s = match format_opt d with
               | Some hhmmss => (Ok hhmmss, s)
               | None => (Throw RangeError, s)
               end.
Proof.
  destruct d as [t|]; simpl; [reflexivity|].
  unfold format_opt; destruct format_invalid; reflexivity.
Qed.

(** [setCache] writes the entry and logs, or throws before writing when the
    expiration is not a date. *)
Lemma setCache_run (data : JSValue) (cm : CacheManager) (w : World) :
  setCache data (cm, w) =
  match add (ValidDate (now w)) (expirationSeconds cm) with
  | ValidDate t =>
      (Ok tt,
       (cm, logged cm ("Cache updated. New expiration: " +:+ format_time t)
              (with_localStorage
                 (insert (key cm) (JSON_stringify (cacheEntry (toISOString t) data)))
                 w)))
  | InvalidDate => (Throw RangeError, (cm, w))
  end.
Proof.
  unfold setCache, new_Date, localStorage_setItem, Date_toISOString.
  unfold_M; simpl.
  destruct (TimeClip _) as [t|]; simpl; [|reflexivity].
  rewrite log_run. reflexivity.
Qed.

Lemma scheduleRefresh_run (cm : CacheManager) (w : World) :
  scheduleRefresh (cm, w) =
  if refreshScheduled cm then (Ok tt, (cm, w))
  else (Ok tt, (with_refreshScheduled true cm, with_idleCallbacks S w)).
Proof.
  unfold scheduleRefresh, requestIdleCallbackFn. unfold_M; simpl.
  destruct (refreshScheduled cm); reflexivity.
Qed.

Lemma after_lookup_now cm w : now (after_lookup cm w) = now w.
Proof.
  unfold after_lookup.
  destruct (truthy_item _); [|reflexivity].
  destruct (entry_of _) as [[d v]|]; [destruct (format_opt d)|];
    apply logged_now.
Qed.

(** The block of lines 62-71: the locals and the world it leaves. *)
Lemma lookup_run (cm : CacheManager) (w : World) (l : Locals) :
  (match truthy_item (localStorage w !! key cm) with
   | Some s => try_catch (getData_try s) (fun _ => call (log "Invalid cache found."))
   | None => ret tt
   end) (l, (cm, w)) =
  (Ok tt,
   (match stored cm w with
    | Some (d, v) => {| cachedValue := v; expiration := d |}
    | None => l
    end, (cm, after_lookup cm w))).
Proof.
  unfold stored, after_lookup.
  destruct (truthy_item _) as [s|]; [|reflexivity].
  unfold entry_of, getData_try, try_catch, parse, bind at 1.
  destruct (JSON_parse s) as [cacheJSON|]; simpl.
  2:{ unfold call; simpl. rewrite log_run. reflexivity. }
  unfold prop, bind at 1.
  destruct (getProp cacheJSON "expiration") as [e|x] eqn:He; simpl.
  2:{ unfold call; simpl. rewrite log_run. reflexivity. }
  assert (Hv : exists v, getProp cacheJSON "value" = Ok v).
  { destruct cacheJSON; simpl in *; try discriminate; eauto. }
  destruct Hv as [v Hv]. rewrite Hv.
  unfold set_expiration, set_cachedValue, local. unfold_M; simpl.
  rewrite format_run.
  destruct (format_opt (Date_of e)); simpl; rewrite log_run; reflexivity.
Qed.

(** [getData(false)] up to its return or its await, by cases on what is
    stored. *)
Lemma getData_start_false_run (cm : CacheManager) (w : World) :
  getData_start false (cm, w) =
  match stored cm w with
  | Some (d, v) =>
      if ToBoolean v then
        match d with
        | ValidDate t =>
            if t <? now w then (Ok (Return v), after_stale cm t w)
            else (Ok (Return v), (cm, after_lookup cm w))
        | InvalidDate => (Ok (Return v), (cm, after_lookup cm w))
        end
      else (Ok AwaitFetch, (cm, with_fetchCalls S (after_lookup cm w)))
  | None => (Ok AwaitFetch, (cm, with_fetchCalls S (after_lookup cm w)))
  end.
Proof.
  unfold getData_start, when, localStorage_getItem, new_Date.
  unfold bind at 1, ret at 1. unfold bind at 1, this, gets at 1. cbn [fst snd].
  unfold bind at 1, gets at 1. cbn [fst snd].
  unfold bind at 1, gets at 1. cbn [fst snd].
  unfold with_locals, bind at 1.
  rewrite lookup_run.
  destruct (stored cm w) as [[d v]|]; unfold local, fetchFunction, date_gt;
    unfold_M; cbn [fst snd cachedValue expiration ToBoolean].
  2:{ reflexivity. }
  destruct (ToBoolean v); [|reflexivity].
  cbn [fst snd cachedValue expiration].
  rewrite after_lookup_now.
  destruct d as [t|]; [|reflexivity].
  destruct (t <? now w); [|reflexivity].
  rewrite format_run; cbn [format_opt fst snd].
  rewrite log_run; cbn [fst snd]. rewrite scheduleRefresh_run. unfold after_stale.
  destruct (refreshScheduled cm); reflexivity.
Qed.

(** [getData(true)] up to its await: the entry is removed and the fetch
    function is called, whatever was stored. *)
Lemma getData_start_true_run (cm : CacheManager) (w : World) :
  getData_start true (cm, w) =
  (Ok AwaitFetch,
   (cm, with_fetchCalls S
          (logged cm "Reload requested. Cache cleared."
             (with_localStorage (delete (key cm)) w)))).
Proof.
  pose proof (getData_start_false_run cm
    (logged cm "Reload requested. Cache cleared."
       (with_localStorage (delete (key cm)) w))) as Hf.
  assert (Hs : forall w', localStorage w' = delete (key cm) (localStorage w) ->
                          stored cm w' = None /\ after_lookup cm w' = w').
  { intros w' Hw'. unfold stored, after_lookup. rewrite Hw', lookup_delete_eq.
    split; reflexivity. }
  destruct (Hs (logged cm "Reload requested. Cache cleared."
       (with_localStorage (delete (key cm)) w))) as [Hst Hal].
  { rewrite logged_localStorage. reflexivity. }
  rewrite Hst, Hal in Hf. rewrite <- Hf.
  assert (Hblock :
    (let* k := this key in
     localStorage_removeItem k ;;
     log "Reload requested. Cache cleared.") (cm, w) =
    (Ok tt, (cm, logged cm "Reload requested. Cache cleared."
                   (with_localStorage (delete (key cm)) w)))).
  { unfold localStorage_removeItem. unfold_M; cbn [fst snd].
    rewrite log_run. reflexivity. }
  unfold getData_start, when.
  rewrite bind_run, Hblock. symmetry. rewrite bind_run. reflexivity.
Qed.

Lemma after_lookup_localStorage cm w :
  localStorage (after_lookup cm w) = localStorage w.
Proof.
  unfold after_lookup.
  destruct (truthy_item _); [|reflexivity].
  destruct (entry_of _) as [[d v]|]; [destruct (format_opt d)|];
    apply logged_localStorage.
Qed.

Lemma after_lookup_idleCallbacks cm w :
  idleCallbacks (after_lookup cm w) = idleCallbacks w.
Proof.
  unfold after_lookup.
  destruct (truthy_item _); [|reflexivity].
  destruct (entry_of _) as [[d v]|]; [destruct (format_opt d)|];
    apply logged_idleCallbacks.
Qed.

Lemma after_lookup_fetchCalls cm w :
  fetchCalls (after_lookup cm w) = fetchCalls w.
Proof.
  unfold after_lookup.
  destruct (truthy_item _); [|reflexivity].
  destruct (entry_of _) as [[d v]|]; [destruct (format_opt d)|];
    apply logged_fetchCalls.
Qed.

(** What the expired path leaves: the flag set, one callback more unless a
    refresh was pending, the store and the fetch count as they were. *)
Lemma after_stale_spec cm t w :
  refreshScheduled (fst (after_stale cm t w)) = true /\
  idleCallbacks (snd (after_stale cm t w)) =
    (idleCallbacks w + if refreshScheduled cm then 0 else 1)%nat /\
  fetchCalls (snd (after_stale cm t w)) = fetchCalls w /\
  localStorage (snd (after_stale cm t w)) = localStorage w /\
  key (fst (after_stale cm t w)) = key cm.
Proof.
  unfold after_stale.
  destruct (refreshScheduled cm) eqn:Hflag; cbn [fst snd with_idleCallbacks
    with_refreshScheduled refreshScheduled idleCallbacks fetchCalls localStorage key];
    rewrite ?logged_idleCallbacks, ?logged_fetchCalls, ?logged_localStorage,
      ?after_lookup_idleCallbacks, ?after_lookup_fetchCalls,
      ?after_lookup_localStorage;
    repeat split; auto; lia.
Qed.

(** [stored] looks at the key and at the string under it, nothing else. *)
Lemma stored_ext cm cm' w w' :
  key cm' = key cm ->
  localStorage w' !! key cm' = localStorage w !! key cm ->
  stored cm' w' = stored cm w.
Proof. intros Hk Hl. unfold stored. rewrite Hl. reflexivity. Qed.

(** A write that is in range succeeds and stores [written]. *)
Lemma setCache_ok data cm w :
  Z.abs (deadline (now w) (expirationSeconds cm)) <= maxTime ->
  setCache data (cm, w) =
  (Ok tt,
   (cm, logged cm ("Cache updated. New expiration: "
                   +:+ format_time (deadline (now w) (expirationSeconds cm)))
          (with_localStorage
             (insert (key cm) (written (now w) (expirationSeconds cm) data)) w))).
Proof.
  unfold deadline. intros Hr. rewrite setCache_run. unfold add, TimeClip.
  destruct (Z.leb_spec (Z.abs (now w + expirationSeconds cm * 1000)) maxTime);
    [reflexivity | lia].
Qed.

(** A write that succeeded was in range and stored [written]. *)
Lemma setCache_inv data cm w m :
  setCache data (cm, w) = (Ok tt, m) ->
  Z.abs (deadline (now w) (expirationSeconds cm)) <= maxTime /\
  fst m = cm /\
  localStorage (snd m) =
    <[key cm := written (now w) (expirationSeconds cm) data]> (localStorage w).
Proof.
  unfold deadline. rewrite setCache_run. unfold add, TimeClip.
  destruct (Z.leb_spec (Z.abs (now w + expirationSeconds cm * 1000)) maxTime);
    [|discriminate].
  intros Heq. injection Heq as <-. cbn [fst snd].
  rewrite logged_localStorage. auto.
Qed.

(** Reading back a written entry, on a platform that round-trips it. *)
Lemma stored_written cm w t seconds v :
  JSON_roundtrip (cacheEntry (toISOString (deadline t seconds)) v) ->
  ISO_roundtrip (deadline t seconds) ->
  localStorage w !! key cm = Some (written t seconds v) ->
  stored cm w = Some (ValidDate (deadline t seconds), v).
Proof.
  intros [Hfull Hjson] Hiso Hl. unfold stored, truthy_item. rewrite Hl.
  destruct (String.eqb_spec (written t seconds v) "") as [He|_].
  { unfold written in He. contradiction. }
  unfold entry_of, written. rewrite Hjson. cbn. rewrite Hiso. reflexivity.
Qed.

Lemma getData_resume_run r cm w :
  getData_resume r (cm, w) =
  match r with
  | Resolved data =>
      match setCache data (cm, w) with
      | (Ok _, m) => (Ok data, m)
      | (Throw e, m) => (Throw e, m)
      end
  | Rejected e => (Throw e, (cm, w))
  end.
Proof. destruct r; reflexivity. Qed.

(** The callback after its await: it never throws and always clears the
    flag. *)
Lemma refreshCallback_resume_run r cm w :
  exists w',
    refreshCallback_resume r (cm, w) =
    (Ok tt, (with_refreshScheduled false cm, w')).
Proof.
  unfold refreshCallback_resume, try_finally, try_catch.
  assert (Hhandler : forall e w0,
    (log ("Error during background refresh: " +:+ Exn_toString e) ;;
     console_error e) (cm, w0) =
    (Ok tt, (cm, with_consoleError (fun l => l ++ [e])
                   (logged cm ("Error during background refresh: "
                               +:+ Exn_toString e) w0)))).
  { intros e w0. rewrite bind_run, log_run. reflexivity. }
  destruct r as [data|e].
  - rewrite bind_run. cbn [await ret]. rewrite bind_run, setCache_run.
    destruct (add _ _) as [t|].
    + rewrite bind_run, log_run. unfold onBackgroundRefresh_call.
      rewrite bind_run. cbn [this gets fst snd].
      destruct (onBackgroundRefresh cm) as [f|].
      * rewrite bind_run. cbn [set_world modify fst snd].
        destruct (f data) as [e|].
        -- cbn [throw]. rewrite Hhandler. eexists. reflexivity.
        -- eexists. reflexivity.
      * eexists. reflexivity.
    + rewrite Hhandler. eexists. reflexivity.
  - rewrite bind_run. cbn [await throw]. rewrite Hhandler.
    eexists. reflexivity.
Qed.

(** ** Expiration *)

(** C1, amended.  An entry holding a truthy value [v] was written by
    [setCache] when the clock read [now w0], with TTL [expirationSeconds
    cm0]; the platform reads it back.  A later [getData(false)] on the same
    key returns [v] without awaiting a fetch and leaves the store alone.
    Read at a time less than or equal to write time + TTL it registers no
    refresh and leaves the instance as it was; read strictly after, it
    leaves the flag set and has registered exactly one callback when no
    refresh was pending, none when one was. *)
Theorem expiration_boundary
  (cm0 : CacheManager) (w0 : World) (v : JSValue) (m1 : Machine)
  (cm : CacheManager) (w : World) :
  setCache v (cm0, w0) = (Ok tt, m1) ->
  ToBoolean v = true ->
  JSON_roundtrip
    (cacheEntry (toISOString (deadline (now w0) (expirationSeconds cm0))) v) ->
  ISO_roundtrip (deadline (now w0) (expirationSeconds cm0)) ->
  key cm = key cm0 ->
  localStorage w !! key cm = localStorage (snd m1) !! key cm0 ->
  exists cm' w',
    getData_start false (cm, w) = (Ok (Return v), (cm', w')) /\
    fetchCalls w' = fetchCalls w /\
    localStorage w' = localStorage w /\
    if now w <=? deadline (now w0) (expirationSeconds cm0)
    then cm' = cm /\ idleCallbacks w' = idleCallbacks w
    else refreshScheduled cm' = true /\
         idleCallbacks w' =
           (idleCallbacks w + if refreshScheduled cm then 0 else 1)%nat.
Proof.
  intros Hwrite Hv Hjson Hiso Hkey Hsame.
  apply setCache_inv in Hwrite as (_ & _ & Hstore).
  rewrite Hstore, lookup_insert_eq in Hsame.
  pose proof (stored_written cm w _ _ v Hjson Hiso Hsame) as Hst.
  rewrite getData_start_false_run, Hst, Hv.
  destruct (Z.ltb_spec (deadline (now w0) (expirationSeconds cm0)) (now w))
    as [Hlate|Hearly].
  - destruct (after_stale_spec cm (deadline (now w0) (expirationSeconds cm0)) w)
      as (Hflag & Hidle & Hfetch & Hls & _).
    destruct (after_stale cm _ w) as [cm' w'] eqn:Hstale.
    exists cm', w'. cbn [fst snd] in *.
    destruct (Z.leb_spec (now w) (deadline (now w0) (expirationSeconds cm0)));
      [lia|]. auto.
  - exists cm, (after_lookup cm w).
    rewrite after_lookup_fetchCalls, after_lookup_localStorage,
      after_lookup_idleCallbacks.
    destruct (Z.leb_spec (now w) (deadline (now w0) (expirationSeconds cm0)));
      [|lia]. auto.
Qed.

(** C9.  Round trip through the store: a truthy value [v] that the
    platform serializes and parses back (it is JSON-serializable), written
    by [setCache] and read by [getData(false)] before the expiration of the
    entry, comes back equal to [v]; the call returns at once, so that
    what a fetch would give ([r], at time [t]) is never looked at. *)
Theorem write_then_read_round_trip
  (cm0 : CacheManager) (w0 : World) (v : JSValue) (m1 : Machine)
  (cm : CacheManager) (w : World) (r : FetchResult) (t : Z) :
  setCache v (cm0, w0) = (Ok tt, m1) ->
  ToBoolean v = true ->
  JSON_roundtrip
    (cacheEntry (toISOString (deadline (now w0) (expirationSeconds cm0))) v) ->
  ISO_roundtrip (deadline (now w0) (expirationSeconds cm0)) ->
  key cm = key cm0 ->
  localStorage w !! key cm = localStorage (snd m1) !! key cm0 ->
  now w < deadline (now w0) (expirationSeconds cm0) ->
  getData_start false (cm, w) = (Ok (Return v), (cm, after_lookup cm w)) /\
  getData_run false r t (cm, w) = (Ok v, (cm, after_lookup cm w)).
Proof.
  intros Hwrite Hv Hjson Hiso Hkey Hsame Hbefore.
  apply setCache_inv in Hwrite as (_ & _ & Hstore).
  rewrite Hstore, lookup_insert_eq in Hsame.
  pose proof (stored_written cm w _ _ v Hjson Hiso Hsame) as Hst.
  unfold getData_run. rewrite getData_start_false_run, Hst, Hv.
  destruct (Z.ltb_spec (deadline (now w0) (expirationSeconds cm0)) (now w));
    [lia | split; reflexivity].
Qed.

(** C10.  An entry that parses, holds a truthy value [v] and has an
    expiration that is not a date: the comparison with the clock is false
    at every time, and [getData(false)] returns [v], schedules nothing and
    fetches nothing, whatever the clock reads. *)
Theorem invalid_expiration_never_expires
  (cm : CacheManager) (w : World) (v : JSValue) :
  stored cm w = Some (InvalidDate, v) ->
  ToBoolean v = true ->
  (forall t, date_gt (ValidDate t) InvalidDate = false) /\
  forall t, exists w',
    getData_start false (cm, with_now t w) = (Ok (Return v), (cm, w')) /\
    idleCallbacks w' = idleCallbacks w /\
    fetchCalls w' = fetchCalls w /\
    localStorage w' = localStorage w.
Proof.
  intros Hst Hv. split; [reflexivity|].
  intros t. exists (after_lookup cm (with_now t w)).
  rewrite getData_start_false_run.
  rewrite (stored_ext cm cm w (with_now t w) eq_refl eq_refl), Hst, Hv.
  rewrite after_lookup_idleCallbacks, after_lookup_fetchCalls,
    after_lookup_localStorage. auto.
Qed.

(** ** The refresh guard *)

(** C2.  While [refreshScheduled] is true, [scheduleRefresh] changes
    nothing.  And two calls of [getData(false)] in a row against an entry
    that is already expired, no callback running in between, return the
    stale value twice and register one callback in all when no refresh was
    pending, none when one was. *)
Theorem at_most_one_refresh
  (cm : CacheManager) (w : World) (t : Z) (v : JSValue) (t2 : Z) :
  stored cm w = Some (ValidDate t, v) ->
  ToBoolean v = true ->
  t < now w ->
  now w <= t2 ->
  (forall cm' w',
     scheduleRefresh (with_refreshScheduled true cm', w') =
     (Ok tt, (with_refreshScheduled true cm', w'))) /\
  exists cm1 w1 cm2 w2,
    getData_start false (cm, w) = (Ok (Return v), (cm1, w1)) /\
    getData_start false (cm1, with_now t2 w1) = (Ok (Return v), (cm2, w2)) /\
    refreshScheduled cm1 = true /\
    refreshScheduled cm2 = true /\
    idleCallbacks w1 =
      (idleCallbacks w + if refreshScheduled cm then 0 else 1)%nat /\
    idleCallbacks w2 = idleCallbacks w1.
Proof.
  intros Hst Hv Hlate Hlater. split.
  { intros cm' w'. rewrite scheduleRefresh_run. reflexivity. }
  destruct (after_stale_spec cm t w) as (Hflag1 & Hidle1 & _ & Hls1 & Hkey1).
  destruct (after_stale cm t w) as [cm1 w1] eqn:Hstale1. cbn [fst snd] in *.
  assert (Hst2 : stored cm1 (with_now t2 w1) = Some (ValidDate t, v)).
  { rewrite <- Hst. apply stored_ext; [assumption|].
    cbn [with_now localStorage]. rewrite Hls1, Hkey1. reflexivity. }
  destruct (after_stale_spec cm1 t (with_now t2 w1))
    as (Hflag2 & Hidle2 & _ & _ & _).
  destruct (after_stale cm1 t (with_now t2 w1)) as [cm2 w2] eqn:Hstale2.
  cbn [fst snd] in *.
  exists cm1, w1, cm2, w2.
  rewrite !getData_start_false_run, Hst, Hst2, Hv.
  cbn [with_now now].
  destruct (Z.ltb_spec t (now w)); [|lia].
  destruct (Z.ltb_spec t t2); [|lia].
  rewrite Hstale1, Hstale2, Hflag1 in *.
  cbn [with_now idleCallbacks] in Hidle2.
  repeat split; auto; lia.
Qed.

(** ** Failures *)

(** C3.  The deferred callback, once its fetch has settled: when the fetch
    failed with [e] the error is logged and sent to [console.error], the
    store is left alone, the callback does not throw and the flag is false
    again.  Whatever the fetch gave, the callback ends without throwing,
    with the flag false; and from there [scheduleRefresh] registers a
    callback again. *)
Theorem background_failure_is_contained
  (e : Exn) (r : FetchResult) (cm : CacheManager) (w : World) :
  refreshCallback_resume (Rejected e) (cm, w) =
    (Ok tt,
     (with_refreshScheduled false cm,
      with_consoleError (fun l => l ++ [e])
        (logged cm ("Error during background refresh: " +:+ Exn_toString e) w)))
  /\
  exists w',
    refreshCallback_resume r (cm, w) =
      (Ok tt, (with_refreshScheduled false cm, w')) /\
    scheduleRefresh (with_refreshScheduled false cm, w') =
      (Ok tt, (with_refreshScheduled true cm, with_idleCallbacks S w')).
Proof.
  split.
  - unfold refreshCallback_resume, try_finally, try_catch.
    rewrite bind_run. cbn [await throw]. rewrite bind_run, log_run.
    reflexivity.
  - destruct (refreshCallback_resume_run r cm w) as [w' Hw'].
    exists w'. split; [exact Hw'|].
    rewrite scheduleRefresh_run. reflexivity.
Qed.

(** C4.  A call of [getData] suspended at its fetch, when the fetch fails
    with [e]: the call fails with [e] and changes nothing, so that no entry
    is written.  Nothing else shows a fetch failure to a caller.  Up to its
    await [getData] does not fail; a call that returned the cached value
    returns it whatever the fetch function would do, and a call that
    reached the await fails with [e] in the state it had at the await.  The
    deferred callback turns the same failure into a normal end. *)
Theorem fetch_failure_reaches_the_caller
  (e : Exn) (reload : bool) (t : Z) (cm : CacheManager) (w : World) :
  getData_resume (Rejected e) (cm, w) = (Throw e, (cm, w)) /\
  match getData_start reload (cm, w) with
  | (Ok (Return v), m1) =>
      getData_run reload (Rejected e) t (cm, w) = (Ok v, m1)
  | (Ok AwaitFetch, (cm1, w1)) =>
      getData_run reload (Rejected e) t (cm, w) =
      (Throw e, (cm1, with_now t w1))
  | (Throw _, _) => False
  end /\
  (exists m, refreshCallback_resume (Rejected e) (cm, w) = (Ok tt, m)).
Proof.
  split; [reflexivity|]. split.
  - unfold getData_run.
    assert (Hstart : exists step m, getData_start reload (cm, w) = (Ok step, m)).
    { destruct reload.
      - rewrite getData_start_true_run. eauto.
      - rewrite getData_start_false_run.
        destruct (stored cm w) as [[[t'|] v]|]; [| |eauto];
          destruct (ToBoolean v); eauto.
        destruct (t' <? now w); eauto. }
    destruct Hstart as (step & [cm1 w1] & ->).
    destruct step; reflexivity.
  - destruct (refreshCallback_resume_run (Rejected e) cm w) as [w' Hw'].
    eauto.
Qed.

(** ** Misses *)

(** The synchronous-fetch branch as a whole: when [getData_start] stops at
    the await in world [w1], the fetch resolves with [data] while the clock
    reads [t] and the write is in range, the call returns [data] and the
    store holds the fresh entry under the key. *)
Lemma miss_then_fetch cm w w1 data t reload :
  getData_start reload (cm, w) = (Ok AwaitFetch, (cm, w1)) ->
  Z.abs (deadline t (expirationSeconds cm)) <= maxTime ->
  exists w2,
    getData_run reload (Resolved data) t (cm, w) = (Ok data, (cm, w2)) /\
    localStorage w2 =
      <[key cm := written t (expirationSeconds cm) data]> (localStorage w1) /\
    fetchCalls w2 = fetchCalls w1 /\
    idleCallbacks w2 = idleCallbacks w1.
Proof.
  intros Hstart Hrange. unfold getData_run. rewrite Hstart.
  rewrite getData_resume_run, setCache_ok by exact Hrange.
  eexists. split; [reflexivity|].
  rewrite logged_localStorage, logged_fetchCalls, logged_idleCallbacks.
  auto.
Qed.

(** C5.  An entry that parses but holds a falsy value [v] is a miss, even
    with an expiration [d] in the future: [getData(false)] calls the fetch
    function and awaits it, schedules nothing, and when the fetch resolves
    with [data] (at time [t], the write being in range) it overwrites the
    entry and returns [data]. *)
Theorem falsy_value_is_a_miss
  (cm : CacheManager) (w : World) (d : JSDate) (v data : JSValue) (t : Z) :
  stored cm w = Some (d, v) ->
  ToBoolean v = false ->
  Z.abs (deadline t (expirationSeconds cm)) <= maxTime ->
  exists w1 w2,
    getData_start false (cm, w) = (Ok AwaitFetch, (cm, w1)) /\
    fetchCalls w1 = S (fetchCalls w) /\
    idleCallbacks w1 = idleCallbacks w /\
    getData_run false (Resolved data) t (cm, w) = (Ok data, (cm, w2)) /\
    localStorage w2 =
      <[key cm := written t (expirationSeconds cm) data]> (localStorage w).
Proof.
  intros Hst Hv Hrange.
  assert (Hstart : getData_start false (cm, w) =
                   (Ok AwaitFetch, (cm, with_fetchCalls S (after_lookup cm w)))).
  { rewrite getData_start_false_run, Hst, Hv. reflexivity. }
  destruct (miss_then_fetch cm w _ data t false Hstart Hrange)
    as (w2 & Hrun & Hls & _ & _).
  exists (with_fetchCalls S (after_lookup cm w)), w2.
  cbn [with_fetchCalls fetchCalls idleCallbacks localStorage] in *.
  rewrite after_lookup_fetchCalls, after_lookup_idleCallbacks.
  rewrite after_lookup_localStorage in Hls. auto.
Qed.

(** C6.  A string under the key that [JSON.parse] rejects is a miss and
    not a failure: [getData(false)] calls the fetch function and awaits it,
    and when the fetch resolves with [data] (at time [t], the write being
    in range) it returns [data] and stores the fresh entry.  The outcome,
    the final store and the counts of fetches and of callbacks are those
    of the same call on the store without the key; the runs differ by the
    line [Invalid cache found.] of the log. *)
Theorem malformed_entry_is_a_miss
  (cm : CacheManager) (w : World) (s : string) (data : JSValue) (t : Z) :
  localStorage w !! key cm = Some s ->
  JSON_parse s = None ->
  Z.abs (deadline t (expirationSeconds cm)) <= maxTime ->
  exists w1 w2 w2',
    getData_start false (cm, w) = (Ok AwaitFetch, (cm, w1)) /\
    fetchCalls w1 = S (fetchCalls w) /\
    idleCallbacks w1 = idleCallbacks w /\
    getData_run false (Resolved data) t (cm, w) = (Ok data, (cm, w2)) /\
    localStorage w2 =
      <[key cm := written t (expirationSeconds cm) data]> (localStorage w) /\
    getData_run false (Resolved data) t
      (cm, with_localStorage (delete (key cm)) w) = (Ok data, (cm, w2')) /\
    localStorage w2' = localStorage w2 /\
    fetchCalls w2' = fetchCalls w2 /\
    idleCallbacks w2' = idleCallbacks w2.
Proof.
  intros Hl Hparse Hrange.
  assert (Hst : stored cm w = None).
  { unfold stored, truthy_item. rewrite Hl.
    destruct (String.eqb s ""); [reflexivity|].
    unfold entry_of. rewrite Hparse. reflexivity. }
  assert (Hst' : stored cm (with_localStorage (delete (key cm)) w) = None).
  { unfold stored. cbn [with_localStorage localStorage].
    rewrite lookup_delete_eq. reflexivity. }
  assert (Hstart : getData_start false (cm, w) =
                   (Ok AwaitFetch, (cm, with_fetchCalls S (after_lookup cm w)))).
  { rewrite getData_start_false_run, Hst. reflexivity. }
  assert (Hstart' :
    getData_start false (cm, with_localStorage (delete (key cm)) w) =
    (Ok AwaitFetch,
     (cm, with_fetchCalls S
            (after_lookup cm (with_localStorage (delete (key cm)) w))))).
  { rewrite getData_start_false_run, Hst'. reflexivity. }
  destruct (miss_then_fetch cm w _ data t false Hstart Hrange)
    as (w2 & Hrun & Hls & Hf & Hi).
  destruct (miss_then_fetch cm _ _ data t false Hstart' Hrange)
    as (w2' & Hrun' & Hls' & Hf' & Hi').
  exists (with_fetchCalls S (after_lookup cm w)), w2, w2'.
  cbn [with_fetchCalls fetchCalls idleCallbacks localStorage] in *.
  rewrite after_lookup_fetchCalls, after_lookup_idleCallbacks in *.
  rewrite after_lookup_localStorage in *.
  cbn [with_localStorage fetchCalls idleCallbacks localStorage] in *.
  rewrite Hls', Hls, Hf, Hf', Hi, Hi', insert_delete_eq.
  repeat split; auto.
Qed.

(** C7.  [getData(true)], whatever the store holds: up to its await it has
    removed the entry under the key and called the fetch function, without
    returning anything; when the fetch resolves with [data] (at time [t],
    the write being in range) the call returns [data] and the store holds
    the fresh entry.  In whatever state the call resumes, it returns the
    fetched [data] or fails: it has no other value to return. *)
Theorem reload_fetches_fresh
  (cm : CacheManager) (w : World) (data : JSValue) (t : Z) :
  Z.abs (deadline t (expirationSeconds cm)) <= maxTime ->
  (exists w1 w2,
     getData_start true (cm, w) = (Ok AwaitFetch, (cm, w1)) /\
     localStorage w1 = delete (key cm) (localStorage w) /\
     fetchCalls w1 = S (fetchCalls w) /\
     idleCallbacks w1 = idleCallbacks w /\
     getData_run true (Resolved data) t (cm, w) = (Ok data, (cm, w2)) /\
     localStorage w2 =
       <[key cm := written t (expirationSeconds cm) data]> (localStorage w)) /\
  forall m, exists m',
    getData_resume (Resolved data) m = (Ok data, m') \/
    getData_resume (Resolved data) m = (Throw RangeError, m').
Proof.
  intros Hrange. split.
  - pose proof (getData_start_true_run cm w) as Hstart.
    destruct (miss_then_fetch cm w _ data t true Hstart Hrange)
      as (w2 & Hrun & Hls & _ & _).
    eexists _, w2. split; [exact Hstart|].
    cbn [with_fetchCalls fetchCalls idleCallbacks localStorage] in *.
    rewrite logged_localStorage, logged_fetchCalls, logged_idleCallbacks in *.
    cbn [with_localStorage fetchCalls idleCallbacks localStorage] in *.
    rewrite Hls, insert_delete_eq. auto.
  - intros [cm' w']. rewrite getData_resume_run, setCache_run.
    destruct (add _ _); eauto.
Qed.

(** ** The TTL *)

(** C8.  [updateExpiration(n)] replaces the TTL of the instance and logs;
    the key, the flag and the store, hence the entry under the key and its
    expiration, stay as they were.  The next [setCache], when the clock
    reads [now w'], stores an entry whose expiration is [now w'] plus the
    new TTL. *)
Theorem updateExpiration_is_not_retroactive
  (n : Z) (cm : CacheManager) (w w' : World) (data : JSValue) :
  Z.abs (deadline (now w') n) <= maxTime ->
  updateExpiration n (cm, w) =
    (Ok tt,
     (with_expirationSeconds n cm,
      logged cm ("Expiration seconds updated to " +:+ Number_toString n) w)) /\
  localStorage
    (logged cm ("Expiration seconds updated to " +:+ Number_toString n) w) =
    localStorage w /\
  stored (with_expirationSeconds n cm)
    (logged cm ("Expiration seconds updated to " +:+ Number_toString n) w) =
    stored cm w /\
  exists w'',
    setCache data (with_expirationSeconds n cm, w') =
      (Ok tt, (with_expirationSeconds n cm, w'')) /\
    localStorage w'' =
      <[key cm :=
          JSON_stringify (cacheEntry (toISOString (now w' + n * 1000)) data)]>
        (localStorage w').
Proof.
  intros Hrange. split; [|split; [|split]].
  - unfold updateExpiration. rewrite bind_run. cbn [set_this modify fst snd].
    rewrite log_run. unfold logged. reflexivity.
  - apply logged_localStorage.
  - apply stored_ext; [reflexivity|]. rewrite logged_localStorage. reflexivity.
  - rewrite setCache_ok by exact Hrange. eexists. split; [reflexivity|].
    rewrite logged_localStorage. reflexivity.
Qed.

End Properties.

(** * More of the class and of its caller *)

Section More.

Context {platform : Platform}.

(** ** What the operations leave alone *)

Definition kept (m m' : Machine) : Prop :=
  frame m m' /\ other_sink_untouched m m'.

Lemma kept_refl m : kept m m.
Proof.
  unfold kept, frame, other_sink_untouched.
  destruct (onLog (fst m)); repeat split; auto.
Qed.

Lemma kept_trans m1 m2 m3 : kept m1 m2 -> kept m2 m3 -> kept m1 m3.
Proof.
  unfold kept, frame, other_sink_untouched.
  intros [(Hk & Ho & Hl & Hn & Hs) Hsink] [(Hk' & Ho' & Hl' & Hn' & Hs') Hsink'].
  rewrite Hl in Hsink'. rewrite Hk in Hs'.
  repeat split; try congruence.
  - intros k Hne. rewrite Hs', Hs by assumption. reflexivity.
  - destruct (onLog (fst m1)); congruence.
Qed.

Lemma kept_logged cm message w : kept (cm, w) (cm, logged cm message w).
Proof.
  unfold kept, frame, other_sink_untouched, logged. cbn [fst snd].
  destruct (onLog cm); repeat split; auto.
Qed.

Lemma kept_world cm cm' w w' :
  key cm' = key cm ->
  onBackgroundRefresh cm' = onBackgroundRefresh cm ->
  onLog cm' = onLog cm ->
  now w' = now w ->
  (forall k, k <> key cm -> localStorage w' !! k = localStorage w !! k) ->
  consoleLog w' = consoleLog w ->
  onLogCalls w' = onLogCalls w ->
  kept (cm, w) (cm', w').
Proof.
  intros. unfold kept, frame, other_sink_untouched. cbn [fst snd].
  destruct (onLog cm); repeat split; auto.
Qed.

Lemma kept_after_lookup cm w : kept (cm, w) (cm, after_lookup cm w).
Proof.
  unfold after_lookup.
  destruct (truthy_item _); [|apply kept_refl].
  destruct (entry_of _) as [[d v]|]; [destruct (format_opt d)|];
    apply kept_logged.
Qed.

Lemma kept_after_stale cm t w : kept (cm, w) (after_stale cm t w).
Proof.
  unfold after_stale.
  destruct (refreshScheduled cm).
  - eapply kept_trans; [apply kept_after_lookup | apply kept_logged].
  - eapply kept_trans; [apply kept_after_lookup|].
    eapply kept_trans; [apply kept_logged|].
    apply kept_world; reflexivity || auto.
Qed.

Lemma kept_cached cm data w : kept (cm, w) (cm, cached cm data w).
Proof.
  unfold cached.
  eapply kept_trans; [|apply kept_logged].
  apply kept_world; try reflexivity.
  intros k Hne. cbn [with_localStorage localStorage].
  rewrite lookup_insert_ne by congruence. reflexivity.
Qed.

Lemma kept_refresh_failed cm e w : kept (cm, w) (cm, refresh_failed cm e w).
Proof.
  unfold refresh_failed.
  eapply kept_trans; [apply kept_logged|].
  apply kept_world; reflexivity || auto.
Qed.

(** [setCache], by cases on the range, with the world it leaves. *)
Lemma setCache_cases data cm w :
  setCache data (cm, w) =
  if Z.abs (deadline (now w) (expirationSeconds cm)) <=? maxTime
  then (Ok tt, (cm, cached cm data w))
  else (Throw RangeError, (cm, w)).
Proof.
  rewrite setCache_run. unfold add, TimeClip, cached, written, deadline.
  destruct (Z.abs _ <=? maxTime); reflexivity.
Qed.

(** The refresh callback after its await, on a fetch that resolved: the
    world it leaves, by cases on the range and on the observer. *)
Lemma refreshCallback_resume_resolved data cm w :
  refreshCallback_resume (Resolved data) (cm, w) =
  (Ok tt,
   (with_refreshScheduled false cm,
    if Z.abs (deadline (now w) (expirationSeconds cm)) <=? maxTime then
      let w1 := logged cm "Background refresh completed." (cached cm data w) in
      match onBackgroundRefresh cm with
      | None => w1
      | Some f =>
          let w2 := with_onBackgroundRefreshCalls (fun l => l ++ [data]) w1 in
          match f data with
          | None => w2
          | Some e => refresh_failed cm e w2
          end
      end
    else refresh_failed cm RangeError w)).
Proof.
  unfold refreshCallback_resume, try_finally, try_catch.
  assert (Hhandler : forall e w0,
    (log ("Error during background refresh: " +:+ Exn_toString e) ;;
     console_error e) (cm, w0) = (Ok tt, (cm, refresh_failed cm e w0))).
  { intros e w0. rewrite bind_run, log_run. reflexivity. }
  rewrite bind_run. cbn [await ret]. rewrite bind_run, setCache_cases.
  destruct (Z.abs _ <=? maxTime).
  - rewrite bind_run, log_run. unfold onBackgroundRefresh_call.
    rewrite bind_run. cbn [this gets fst snd].
    destruct (onBackgroundRefresh cm) as [f|]; [|reflexivity].
    rewrite bind_run. cbn [set_world modify fst snd].
    destruct (f data) as [e|]; [|reflexivity].
    cbn [throw]. rewrite Hhandler. reflexivity.
  - rewrite Hhandler. reflexivity.
Qed.

Lemma refreshCallback_resume_rejected e cm w :
  refreshCallback_resume (Rejected e) (cm, w) =
  (Ok tt, (with_refreshScheduled false cm, refresh_failed cm e w)).
Proof.
  unfold refreshCallback_resume, try_finally, try_catch.
  rewrite bind_run. cbn [await throw]. rewrite bind_run, log_run.
  reflexivity.
Qed.

Lemma refreshCallback_start_run cm w :
  refreshCallback_start (cm, w) =
  (Ok tt,
   (cm, with_fetchCalls S
          (logged cm "Background refresh starting."
             (with_idleCallbacks Nat.pred w)))).
Proof.
  unfold refreshCallback_start, fetchFunction.
  rewrite bind_run. cbn [set_world modify fst snd].
  rewrite bind_run, log_run. reflexivity.
Qed.

Lemma updateExpiration_run n cm w :
  updateExpiration n (cm, w) =
  (Ok tt,
   (with_expirationSeconds n cm,
    logged cm ("Expiration seconds updated to " +:+ Number_toString n) w)).
Proof.
  unfold updateExpiration. rewrite bind_run. cbn [set_this modify fst snd].
  rewrite log_run. reflexivity.
Qed.

Lemma kept_flag b cm w w' :
  kept (cm, w) (cm, w') -> kept (cm, w) (with_refreshScheduled b cm, w').
Proof.
  intros H. eapply kept_trans; [exact H|].
  apply kept_world; reflexivity || auto.
Qed.

(** Every operation of the class keeps what [kept] lists. *)
Lemma operations_kept (reload : bool) (r : FetchResult) (n : Z)
  (cm : CacheManager) (w : World) :
  kept (cm, w) (snd (getData_start reload (cm, w))) /\
  kept (cm, w) (snd (getData_resume r (cm, w))) /\
  kept (cm, w) (snd (refreshCallback_start (cm, w))) /\
  kept (cm, w) (snd (refreshCallback_resume r (cm, w))) /\
  kept (cm, w) (snd (updateExpiration n (cm, w))).
Proof.
  assert (Hfetch : forall w', kept (cm, w) (cm, w') ->
                              kept (cm, w) (cm, with_fetchCalls S w')).
  { intros w' H. eapply kept_trans; [exact H|].
    apply kept_world; reflexivity || auto. }
  split; [|split; [|split; [|split]]].
  - destruct reload.
    + rewrite getData_start_true_run. cbn [snd]. apply Hfetch.
      eapply kept_trans; [|apply kept_logged].
      apply kept_world; try reflexivity.
      intros k Hne. cbn [with_localStorage localStorage].
      rewrite lookup_delete_ne by congruence. reflexivity.
    + rewrite getData_start_false_run.
      destruct (stored cm w) as [[[t|] v]|]; [| |];
        try destruct (ToBoolean v); try destruct (t <? now w); cbn [snd];
        try apply Hfetch; try apply kept_after_lookup; apply kept_after_stale.
  - rewrite getData_resume_run. destruct r as [data|e]; [|apply kept_refl].
    rewrite setCache_cases.
    destruct (Z.abs _ <=? maxTime); cbn [snd];
      [apply kept_cached | apply kept_refl].
  - rewrite refreshCallback_start_run. cbn [snd]. apply Hfetch.
    eapply kept_trans; [|apply kept_logged].
    apply kept_world; reflexivity || auto.
  - destruct r as [data|e].
    + rewrite refreshCallback_resume_resolved. cbn [snd]. apply kept_flag.
      destruct (Z.abs _ <=? maxTime); [|apply kept_refresh_failed].
      assert (H1 : kept (cm, w)
                (cm, logged cm "Background refresh completed." (cached cm data w))).
      { eapply kept_trans; [apply kept_cached | apply kept_logged]. }
      cbn zeta. destruct (onBackgroundRefresh cm) as [f|]; [|exact H1].
      assert (H2 : kept (cm, w)
                (cm, with_onBackgroundRefreshCalls (fun l => l ++ [data])
                       (logged cm "Background refresh completed."
                          (cached cm data w)))).
      { eapply kept_trans; [exact H1|]. apply kept_world; reflexivity || auto. }
      destruct (f data); [|exact H2].
      eapply kept_trans; [exact H2 | apply kept_refresh_failed].
    + rewrite refreshCallback_resume_rejected. cbn [snd]. apply kept_flag.
      apply kept_refresh_failed.
  - rewrite updateExpiration_run. cbn [snd].
    eapply kept_trans; [apply kept_logged|].
    apply kept_world; reflexivity || auto.
Qed.

(** X4.  Whatever the class does (a call of [getData] up to its return or
    its await, the rest of that call, the refresh callback before and after
    its await, [updateExpiration]), the entries of the store under other
    keys are as they were, and so are the key, the observer and the log
    callback of the instance, and the clock. *)
Theorem operations_keep_to_their_key (reload : bool) (r : FetchResult) (n : Z)
  (cm : CacheManager) (w : World) :
  frame (cm, w) (snd (getData_start reload (cm, w))) /\
  frame (cm, w) (snd (getData_resume r (cm, w))) /\
  frame (cm, w) (snd (refreshCallback_start (cm, w))) /\
  frame (cm, w) (snd (refreshCallback_resume r (cm, w))) /\
  frame (cm, w) (snd (updateExpiration n (cm, w))).
Proof.
  destruct (operations_kept reload r n cm w) as (H1 & H2 & H3 & H4 & H5).
  split; [|split; [|split; [|split]]];
    [apply H1 | apply H2 | apply H3 | apply H4 | apply H5].
Qed.

(** X5.  The class logs through one sink: an instance built with a log
    callback never writes to [console.log], and an instance built without
    one never calls a log callback, in any of its operations. *)
Theorem operations_log_through_one_sink (reload : bool) (r : FetchResult) (n : Z)
  (cm : CacheManager) (w : World) :
  other_sink_untouched (cm, w) (snd (getData_start reload (cm, w))) /\
  other_sink_untouched (cm, w) (snd (getData_resume r (cm, w))) /\
  other_sink_untouched (cm, w) (snd (refreshCallback_start (cm, w))) /\
  other_sink_untouched (cm, w) (snd (refreshCallback_resume r (cm, w))) /\
  other_sink_untouched (cm, w) (snd (updateExpiration n (cm, w))).
Proof.
  destruct (operations_kept reload r n cm w) as (H1 & H2 & H3 & H4 & H5).
  split; [|split; [|split; [|split]]];
    [apply H1 | apply H2 | apply H3 | apply H4 | apply H5].
Qed.

(** ** The refresh callback, case by case *)

Lemma logged_consoleError cm message w :
  consoleError (logged cm message w) = consoleError w.
Proof. unfold logged; destruct (onLog cm); reflexivity. Qed.

Lemma logged_onBackgroundRefreshCalls cm message w :
  onBackgroundRefreshCalls (logged cm message w) = onBackgroundRefreshCalls w.
Proof. unfold logged; destruct (onLog cm); reflexivity. Qed.

Lemma cached_spec cm data w :
  localStorage (cached cm data w) =
    <[key cm := written (now w) (expirationSeconds cm) data]> (localStorage w) /\
  consoleError (cached cm data w) = consoleError w /\
  onBackgroundRefreshCalls (cached cm data w) = onBackgroundRefreshCalls w /\
  idleCallbacks (cached cm data w) = idleCallbacks w /\
  fetchCalls (cached cm data w) = fetchCalls w /\
  now (cached cm data w) = now w.
Proof.
  unfold cached.
  rewrite logged_localStorage, logged_consoleError,
    logged_onBackgroundRefreshCalls, logged_idleCallbacks, logged_fetchCalls,
    logged_now.
  repeat split.
Qed.

Lemma refresh_failed_spec cm e w :
  localStorage (refresh_failed cm e w) = localStorage w /\
  consoleError (refresh_failed cm e w) = consoleError w ++ [e] /\
  onBackgroundRefreshCalls (refresh_failed cm e w) = onBackgroundRefreshCalls w /\
  idleCallbacks (refresh_failed cm e w) = idleCallbacks w /\
  fetchCalls (refresh_failed cm e w) = fetchCalls w /\
  now (refresh_failed cm e w) = now w.
Proof.
  unfold refresh_failed. cbn [with_consoleError localStorage consoleError
    onBackgroundRefreshCalls idleCallbacks fetchCalls now].
  rewrite logged_localStorage, logged_consoleError,
    logged_onBackgroundRefreshCalls, logged_idleCallbacks, logged_fetchCalls,
    logged_now.
  repeat split.
Qed.

(** X1.  A deferred refresh whose fetch resolves with [data], when the
    expiration is a date and the observer, if there is one, returns: the
    callback ends normally with the flag false, the store holds the fresh
    entry, whose expiration is the time of the write plus the TTL, the
    observer has been called once with [data], and nothing went to
    [console.error]. *)
Theorem refresh_success_stores_and_notifies
  (cm : CacheManager) (w : World) (data : JSValue) :
  Z.abs (deadline (now w) (expirationSeconds cm)) <= maxTime ->
  observer_result cm data = None ->
  exists w',
    refreshCallback_resume (Resolved data) (cm, w) =
      (Ok tt, (with_refreshScheduled false cm, w')) /\
    localStorage w' =
      <[key cm := written (now w) (expirationSeconds cm) data]> (localStorage w) /\
    onBackgroundRefreshCalls w' = observed cm data (onBackgroundRefreshCalls w) /\
    consoleError w' = consoleError w.
Proof.
  intros Hrange Hobs. rewrite refreshCallback_resume_resolved.
  destruct (Z.leb_spec (Z.abs (deadline (now w) (expirationSeconds cm))) maxTime);
    [|lia].
  destruct (cached_spec cm data w) as (Hls & Hce & Hoc & _).
  unfold observer_result, observed in *. cbn zeta.
  destruct (onBackgroundRefresh cm) as [f|].
  - rewrite Hobs. eexists. split; [reflexivity|].
    cbn [with_onBackgroundRefreshCalls localStorage consoleError
      onBackgroundRefreshCalls].
    rewrite logged_localStorage, logged_consoleError,
      logged_onBackgroundRefreshCalls, Hls, Hce, Hoc. auto.
  - eexists. split; [reflexivity|].
    rewrite logged_localStorage, logged_consoleError,
      logged_onBackgroundRefreshCalls, Hls, Hce, Hoc. auto.
Qed.


(** X3.  A deferred refresh whose fetch resolves when write time + TTL is
    beyond the range of dates: [toISOString] throws inside [setCache], so
    that nothing is stored and the observer is not called; the
    [RangeError] goes to [console.error], the callback ends normally and
    the flag is false.  The fetched value is lost. *)
Theorem refresh_out_of_range_stores_nothing
  (cm : CacheManager) (w : World) (data : JSValue) :
  maxTime < Z.abs (deadline (now w) (expirationSeconds cm)) ->
  exists w',
    refreshCallback_resume (Resolved data) (cm, w) =
      (Ok tt, (with_refreshScheduled false cm, w')) /\
    localStorage w' = localStorage w /\
    onBackgroundRefreshCalls w' = onBackgroundRefreshCalls w /\
    consoleError w' = consoleError w ++ [RangeError].
Proof.
  intros Hrange. rewrite refreshCallback_resume_resolved.
  destruct (Z.leb_spec (Z.abs (deadline (now w) (expirationSeconds cm))) maxTime);
    [lia|].
  eexists. split; [reflexivity|].
  destruct (refresh_failed_spec cm RangeError w) as (-> & -> & -> & _). auto.
Qed.

(** ** Calls of [getData], hit or miss *)

(** A call that stops at its await left the instance as it was; the world
    it left differs from the one after the removal of a reload and the
    lookup by the count of fetches. *)
Lemma getData_start_await reload cm w :
  fst (getData_start reload (cm, w)) = Ok AwaitFetch ->
  exists w1,
    getData_start reload (cm, w) = (Ok AwaitFetch, (cm, w1)) /\
    fetchCalls w1 = S (fetchCalls w) /\
    idleCallbacks w1 = idleCallbacks w /\
    now w1 = now w /\
    localStorage w1 =
      (if reload then delete (key cm) (localStorage w) else localStorage w).
Proof.
  destruct reload.
  - rewrite getData_start_true_run. intros _. eexists. split; [reflexivity|].
    cbn [with_fetchCalls fetchCalls idleCallbacks now localStorage].
    rewrite logged_fetchCalls, logged_idleCallbacks, logged_now,
      logged_localStorage. auto.
  - rewrite getData_start_false_run.
    assert (Hmiss : exists w1,
      (Ok AwaitFetch, (cm, with_fetchCalls S (after_lookup cm w))) =
        (Ok AwaitFetch, (cm, w1)) /\
      fetchCalls w1 = S (fetchCalls w) /\ idleCallbacks w1 = idleCallbacks w /\
      now w1 = now w /\ localStorage w1 = localStorage w).
    { eexists. split; [reflexivity|].
      cbn [with_fetchCalls fetchCalls idleCallbacks now localStorage].
      rewrite after_lookup_fetchCalls, after_lookup_idleCallbacks,
        after_lookup_now, after_lookup_localStorage. auto. }
    destruct (stored cm w) as [[[t|] v]|]; [| |intros _; exact Hmiss];
      destruct (ToBoolean v); try (intros _; exact Hmiss);
      try destruct (t <? now w); cbn [fst]; discriminate.
Qed.

(** X12.  [getData(false)] up to its return or its await never fails and
    never writes the store.  When it returns a value, that value is a
    truthy one read in the store and the fetch function was not called;
    when it awaits, the fetch function was called once and nothing was
    scheduled. *)
Theorem getData_start_hit_or_miss (cm : CacheManager) (w : World) :
  exists step cm' w',
    getData_start false (cm, w) = (Ok step, (cm', w')) /\
    localStorage w' = localStorage w /\
    match step with
    | Return v =>
        fetchCalls w' = fetchCalls w /\
        ToBoolean v = true /\
        exists d, stored cm w = Some (d, v)
    | AwaitFetch =>
        fetchCalls w' = S (fetchCalls w) /\
        cm' = cm /\
        idleCallbacks w' = idleCallbacks w
    end.
Proof.
  rewrite getData_start_false_run.
  assert (Hmiss : exists step cm' w',
    (Ok AwaitFetch, (cm, with_fetchCalls S (after_lookup cm w))) =
      (Ok step, (cm', w')) /\
    localStorage w' = localStorage w /\
    match step with
    | Return v =>
        fetchCalls w' = fetchCalls w /\ ToBoolean v = true /\
        exists d, stored cm w = Some (d, v)
    | AwaitFetch =>
        fetchCalls w' = S (fetchCalls w) /\ cm' = cm /\
        idleCallbacks w' = idleCallbacks w
    end).
  { exists AwaitFetch, cm, (with_fetchCalls S (after_lookup cm w)).
    cbn [with_fetchCalls fetchCalls idleCallbacks localStorage].
    rewrite after_lookup_fetchCalls, after_lookup_idleCallbacks,
      after_lookup_localStorage. auto. }
  destruct (stored cm w) as [[d v]|] eqn:Hst; [|exact Hmiss].
  destruct (ToBoolean v) eqn:Hv; [|exact Hmiss].
  assert (Hhit : exists step cm' w',
    (Ok (Return v), (cm, after_lookup cm w)) = (Ok step, (cm', w')) /\
    localStorage w' = localStorage w /\
    match step with
    | Return v0 =>
        fetchCalls w' = fetchCalls w /\ ToBoolean v0 = true /\
        exists d0, Some (d, v) = Some (d0, v0)
    | AwaitFetch =>
        fetchCalls w' = S (fetchCalls w) /\ cm' = cm /\
        idleCallbacks w' = idleCallbacks w
    end).
  { exists (Return v), cm, (after_lookup cm w).
    rewrite after_lookup_fetchCalls, after_lookup_localStorage. eauto 6. }
  destruct d as [t|]; [|exact Hhit].
  destruct (t <? now w); [|exact Hhit].
  destruct (after_stale_spec cm t w) as (_ & _ & Hf & Hls & _).
  destruct (after_stale cm t w) as [cm' w'].
  exists (Return v), cm', w'. cbn [fst snd] in *. eauto 6.
Qed.

(** X10.  A stored text that parses to a JSON value that is not an object
    ([null], a boolean, a number, a string, an array) is a miss: the read
    of [value] gives nothing truthy, or throws a [TypeError] that is
    caught, and [getData(false)] calls the fetch function without touching
    the store. *)
Theorem non_object_json_is_a_miss
  (cm : CacheManager) (w : World) (s : string) (j : JSValue) :
  localStorage w !! key cm = Some s ->
  JSON_parse s = Some j ->
  is_object j = false ->
  exists w1,
    getData_start false (cm, w) = (Ok AwaitFetch, (cm, w1)) /\
    fetchCalls w1 = S (fetchCalls w) /\
    idleCallbacks w1 = idleCallbacks w /\
    localStorage w1 = localStorage w.
Proof.
  intros Hl Hparse Hobj.
  assert (Hst : stored cm w = None \/
                exists d, stored cm w = Some (d, JUndefined)).
  { unfold stored, truthy_item. rewrite Hl.
    destruct (String.eqb s ""); [auto|].
    unfold entry_of. rewrite Hparse.
    destruct j; cbn in *; try discriminate; eauto. }
  rewrite getData_start_false_run.
  exists (with_fetchCalls S (after_lookup cm w)).
  cbn [with_fetchCalls fetchCalls idleCallbacks localStorage].
  rewrite after_lookup_fetchCalls, after_lookup_idleCallbacks,
    after_lookup_localStorage.
  destruct Hst as [-> | [d ->]]; cbn [ToBoolean]; auto.
Qed.

Lemma getData_start_no_item cm w :
  truthy_item (localStorage w !! key cm) = None ->
  getData_start false (cm, w) = (Ok AwaitFetch, (cm, with_fetchCalls S w)).
Proof.
  intros Ht.
  rewrite getData_start_false_run. unfold stored, after_lookup. rewrite Ht.
  reflexivity.
Qed.

(** X11.  With no item under the key, or with the empty string under it,
    [getData(false)] goes to the fetch at once: [JSON.parse] is not tried,
    nothing is logged, and the world at the await differs from the one
    before the call by the count of fetches only. *)
Theorem absent_or_empty_item_fetches_quietly (cm : CacheManager) (w : World) :
  localStorage w !! key cm = None \/ localStorage w !! key cm = Some "" ->
  getData_start false (cm, w) = (Ok AwaitFetch, (cm, with_fetchCalls S w)).
Proof.
  intros Hl. apply getData_start_no_item.
  destruct Hl as [-> | ->]; reflexivity.
Qed.

(** X13.  A call of [getData] that awaits its fetch, when the fetch
    resolves while write time + TTL is beyond the range of dates: the call
    fails with the [RangeError] of [toISOString], after the fetch function
    was called, and the store is as it was at the await.  The fetched value
    is lost. *)
Theorem getData_out_of_range_fails
  (reload : bool) (cm : CacheManager) (w : World) (data : JSValue) (t : Z) :
  fst (getData_start reload (cm, w)) = Ok AwaitFetch ->
  maxTime < Z.abs (deadline t (expirationSeconds cm)) ->
  exists w1,
    getData_start reload (cm, w) = (Ok AwaitFetch, (cm, w1)) /\
    fetchCalls w1 = S (fetchCalls w) /\
    getData_run reload (Resolved data) t (cm, w) =
      (Throw RangeError, (cm, with_now t w1)).
Proof.
  intros Hawait Hrange.
  destruct (getData_start_await reload cm w Hawait) as (w1 & Hstart & Hf & _).
  exists w1. split; [exact Hstart|]. split; [exact Hf|].
  unfold getData_run. rewrite Hstart, getData_resume_run, setCache_cases.
  cbn [with_now now].
  destruct (Z.leb_spec (Z.abs (deadline t (expirationSeconds cm))) maxTime);
    [lia | reflexivity].
Qed.

(** ** Any interleaving *)

Lemma getData_start_refresh reload cm w :
  (refreshScheduled (fst (snd (getData_start reload (cm, w)))) =
     refreshScheduled cm /\
   idleCallbacks (snd (snd (getData_start reload (cm, w)))) = idleCallbacks w)
  \/
  (refreshScheduled cm = false /\
   refreshScheduled (fst (snd (getData_start reload (cm, w)))) = true /\
   idleCallbacks (snd (snd (getData_start reload (cm, w)))) =
     S (idleCallbacks w)).
Proof.
  destruct reload.
  - rewrite getData_start_true_run. left. cbn [fst snd with_fetchCalls
      idleCallbacks]. rewrite logged_idleCallbacks. auto.
  - rewrite getData_start_false_run.
    assert (Hsame : forall step w',
      idleCallbacks w' = idleCallbacks w ->
      (refreshScheduled (fst (snd (@Ok Step step, (cm, w')))) = refreshScheduled cm /\
       idleCallbacks (snd (snd (@Ok Step step, (cm, w')))) = idleCallbacks w) \/
      (refreshScheduled cm = false /\
       refreshScheduled (fst (snd (@Ok Step step, (cm, w')))) = true /\
       idleCallbacks (snd (snd (@Ok Step step, (cm, w')))) = S (idleCallbacks w))).
    { intros step w' H. left. cbn [fst snd]. auto. }
    destruct (stored cm w) as [[[t|] v]|]; [| |];
      try destruct (ToBoolean v); try destruct (t <? now w);
      try (apply Hsame; cbn [with_fetchCalls idleCallbacks];
           apply after_lookup_idleCallbacks).
    destruct (after_stale_spec cm t w) as (Hflag & Hidle & _).
    cbn [snd]. destruct (refreshScheduled cm) eqn:Hcm.
    + left. split; [congruence | lia].
    + right. repeat split; [assumption | lia].
Qed.

Lemma step_outstanding ev s s' :
  outstanding s = (if refreshScheduled (fst (machine s)) then 1 else 0)%nat ->
  step ev s = Some s' ->
  outstanding s' = (if refreshScheduled (fst (machine s')) then 1 else 0)%nat.
Proof.
  unfold outstanding. destruct s as [[cm w] a r].
  cbn [machine awaiting running fst snd].
  intros Hinv Hstep.
  destruct ev; cbn [step machine awaiting running fst snd] in Hstep.
  - pose proof (getData_start_refresh reload cm w) as Hg.
    destruct (getData_start reload (cm, w)) as [res [cm' w']].
    cbn [fst snd] in Hg.
    assert (Hs' : machine s' = (cm', w') /\ running s' = r).
    { destruct res as [[v|]|e]; injection Hstep as <-; auto. }
    destruct Hs' as [-> ->]. cbn [fst snd].
    destruct Hg as [[-> ->] | (Hf & -> & ->)]; [assumption|].
    rewrite Hf in Hinv. lia.
  - destruct a as [|a]; [discriminate|]. injection Hstep as <-.
    cbn [machine running]. rewrite getData_resume_run.
    destruct r0 as [data|e]; [|exact Hinv].
    rewrite setCache_cases.
    destruct (Z.abs _ <=? maxTime); cbn [fst snd]; [|exact Hinv].
    destruct (cached_spec cm data w) as (_ & _ & _ & -> & _). exact Hinv.
  - injection Hstep as <-. cbn [machine running].
    rewrite updateExpiration_run. cbn [fst snd with_expirationSeconds
      refreshScheduled]. rewrite logged_idleCallbacks. exact Hinv.
  - destruct (idleCallbacks w) as [|i] eqn:Hi; [discriminate|].
    injection Hstep as <-. cbn [machine running].
    rewrite refreshCallback_start_run.
    cbn [fst snd with_fetchCalls idleCallbacks].
    rewrite logged_idleCallbacks. cbn [with_idleCallbacks idleCallbacks].
    rewrite Hi. cbn [Nat.pred]. lia.
  - destruct r as [|r]; [discriminate|]. injection Hstep as <-.
    cbn [machine running].
    assert (Hr : refreshScheduled
                   (fst (snd (refreshCallback_resume r0 (cm, w)))) = false /\
                 idleCallbacks (snd (snd (refreshCallback_resume r0 (cm, w)))) =
                   idleCallbacks w).
    { destruct r0 as [data|e].
      - rewrite refreshCallback_resume_resolved. cbn [fst snd].
        split; [reflexivity|].
        destruct (Z.abs _ <=? maxTime);
          [|apply (refresh_failed_spec cm RangeError w)].
        destruct (cached_spec cm data w) as (_ & _ & _ & Hi & _).
        cbn zeta. destruct (onBackgroundRefresh cm) as [f|].
        + destruct (f data) as [e|].
          * destruct (refresh_failed_spec cm e
              (with_onBackgroundRefreshCalls (fun l => l ++ [data])
                 (logged cm "Background refresh completed." (cached cm data w))))
              as (_ & _ & _ & -> & _).
            cbn [with_onBackgroundRefreshCalls idleCallbacks].
            rewrite logged_idleCallbacks. exact Hi.
          * cbn [with_onBackgroundRefreshCalls idleCallbacks].
            rewrite logged_idleCallbacks. exact Hi.
        + rewrite logged_idleCallbacks. exact Hi.
      - rewrite refreshCallback_resume_rejected. cbn [fst snd].
        split; [reflexivity|]. apply (refresh_failed_spec cm e w). }
    destruct Hr as [-> ->].
    destruct (refreshScheduled cm); lia.
  - injection Hstep as <-. exact Hinv.
  - injection Hstep as <-. exact Hinv.
Qed.

(** X6.  At most one refresh is outstanding, whatever happens and in
    whatever order.  From a new instance with no callback registered, after
    any sequence of calls of [getData] and [updateExpiration], of fetches
    that settle, of callbacks that the scheduler starts, of clock moves and
    of writes to the store by other code, the refreshes registered or
    running number one when [refreshScheduled] is true and none when it is
    false. *)
Theorem at_most_one_refresh_outstanding
  (k : string) (seconds : Z) (observer : option (JSValue -> option Exn))
  (withLog : bool) (w : World) (evs : list Event) (s' : System) :
  idleCallbacks w = 0%nat ->
  run evs {| machine := (new_CacheManager k seconds observer withLog, w);
             awaiting := 0; running := 0 |} = Some s' ->
  outstanding s' = (if refreshScheduled (fst (machine s')) then 1 else 0)%nat.
Proof.
  intros Hidle.
  assert (Hgen : forall evs s,
    outstanding s = (if refreshScheduled (fst (machine s)) then 1 else 0)%nat ->
    run evs s = Some s' ->
    outstanding s' = (if refreshScheduled (fst (machine s')) then 1 else 0)%nat).
  { clear. induction evs as [|ev evs IH]; intros s Hinv Hrun.
    - injection Hrun as <-. exact Hinv.
    - cbn [run] in Hrun. destruct (step ev s) as [s1|] eqn:Hstep;
        [|discriminate].
      apply (IH s1); [|exact Hrun].
      exact (step_outstanding ev s s1 Hinv Hstep). }
  apply Hgen. unfold outstanding. cbn. rewrite Hidle. reflexivity.
Qed.

(** ** Stale, refreshed, fresh *)

Lemma refresh_run_eq t1 t2 r cm w :
  refresh_run t1 t2 r (cm, w) =
  refreshCallback_resume r
    (cm, with_now t2
           (with_fetchCalls S
              (logged cm "Background refresh starting."
                 (with_idleCallbacks Nat.pred (with_now t1 w))))).
Proof.
  unfold refresh_run. rewrite bind_run. cbn [set_world modify fst snd].
  rewrite bind_run, refreshCallback_start_run, bind_run.
  cbn [set_world modify fst snd]. reflexivity.
Qed.

(** A refresh that is run and whose fetch resolves, in range, with an
    observer that returns. *)
Lemma refresh_run_resolved t1 t2 data cm w :
  Z.abs (deadline t2 (expirationSeconds cm)) <= maxTime ->
  observer_result cm data = None ->
  exists w2,
    refresh_run t1 t2 (Resolved data) (cm, w) =
      (Ok tt, (with_refreshScheduled false cm, w2)) /\
    localStorage w2 =
      <[key cm := written t2 (expirationSeconds cm) data]> (localStorage w) /\
    idleCallbacks w2 = Nat.pred (idleCallbacks w) /\
    fetchCalls w2 = S (fetchCalls w).
Proof.
  intros Hrange Hobs. rewrite refresh_run_eq, refreshCallback_resume_resolved.
  cbn [with_now now].
  destruct (Z.leb_spec (Z.abs (deadline t2 (expirationSeconds cm))) maxTime);
    [|lia].
  match goal with
  | |- context [cached cm data ?w0] =>
      destruct (cached_spec cm data w0) as (Hls & _ & _ & Hi & Hf & _)
  end.
  cbn [with_now with_fetchCalls now localStorage idleCallbacks fetchCalls] in *.
  rewrite logged_localStorage, logged_idleCallbacks, logged_fetchCalls in *.
  cbn [with_idleCallbacks with_now localStorage idleCallbacks fetchCalls] in *.
  unfold observer_result in Hobs. cbn zeta.
  destruct (onBackgroundRefresh cm) as [f|].
  - rewrite Hobs. eexists. split; [reflexivity|].
    cbn [with_onBackgroundRefreshCalls localStorage idleCallbacks fetchCalls].
    rewrite logged_localStorage, logged_idleCallbacks, logged_fetchCalls.
    auto.
  - eexists. split; [reflexivity|].
    rewrite logged_localStorage, logged_idleCallbacks, logged_fetchCalls.
    auto.
Qed.

(** A refresh that is run and whose fetch is rejected. *)
Lemma refresh_run_rejected t1 t2 e cm w :
  exists w2,
    refresh_run t1 t2 (Rejected e) (cm, w) =
      (Ok tt, (with_refreshScheduled false cm, w2)) /\
    localStorage w2 = localStorage w /\
    idleCallbacks w2 = Nat.pred (idleCallbacks w) /\
    fetchCalls w2 = S (fetchCalls w).
Proof.
  rewrite refresh_run_eq, refreshCallback_resume_rejected.
  eexists. split; [reflexivity|].
  match goal with
  | |- context [refresh_failed cm e ?w0] =>
      destruct (refresh_failed_spec cm e w0) as (-> & _ & _ & -> & -> & _)
  end.
  cbn [with_now with_fetchCalls localStorage idleCallbacks fetchCalls].
  rewrite logged_localStorage, logged_idleCallbacks, logged_fetchCalls.
  auto.
Qed.

(** The expired read of an instance with no refresh pending. *)
Lemma stale_read cm w t v :
  stored cm w = Some (ValidDate t, v) ->
  ToBoolean v = true ->
  t < now w ->
  refreshScheduled cm = false ->
  exists w1,
    getData_start false (cm, w) =
      (Ok (Return v), (with_refreshScheduled true cm, w1)) /\
    localStorage w1 = localStorage w /\
    idleCallbacks w1 = S (idleCallbacks w) /\
    fetchCalls w1 = fetchCalls w.
Proof.
  intros Hst Hv Hlate Hflag.
  rewrite getData_start_false_run, Hst, Hv.
  destruct (Z.ltb_spec t (now w)); [|lia].
  unfold after_stale. rewrite Hflag. eexists. split; [reflexivity|].
  cbn [with_idleCallbacks localStorage idleCallbacks fetchCalls].
  rewrite logged_localStorage, logged_idleCallbacks, logged_fetchCalls,
    after_lookup_localStorage, after_lookup_idleCallbacks,
    after_lookup_fetchCalls. auto.
Qed.

(** The read of an entry that is not expired. *)
Lemma fresh_read cm w t v :
  stored cm w = Some (ValidDate t, v) ->
  ToBoolean v = true ->
  now w <= t ->
  getData_start false (cm, w) = (Ok (Return v), (cm, after_lookup cm w)).
Proof.
  intros Hst Hv Hearly. rewrite getData_start_false_run, Hst, Hv.
  destruct (Z.ltb_spec t (now w)); [lia | reflexivity].
Qed.

(** X7.  Stale while revalidate, one whole cycle.  An instance with no
    refresh pending reads an expired truthy entry: [getData(false)] returns
    the stale value and schedules a refresh.  The refresh runs and its
    fetch resolves with a truthy [data] that the platform reads back, in
    range, the observer returning.  The next [getData(false)], up to the
    new expiration, returns [data]; no refresh is pending or registered
    any more, and the fetch function was called once in all. *)
Theorem stale_then_refreshed_then_fresh
  (cm : CacheManager) (w : World) (t : Z) (v data : JSValue) (t1 t2 t3 : Z) :
  stored cm w = Some (ValidDate t, v) ->
  ToBoolean v = true ->
  t < now w ->
  refreshScheduled cm = false ->
  ToBoolean data = true ->
  Z.abs (deadline t2 (expirationSeconds cm)) <= maxTime ->
  observer_result cm data = None ->
  JSON_roundtrip
    (cacheEntry (toISOString (deadline t2 (expirationSeconds cm))) data) ->
  ISO_roundtrip (deadline t2 (expirationSeconds cm)) ->
  t3 <= deadline t2 (expirationSeconds cm) ->
  exists m1 m2 m3,
    getData_start false (cm, w) = (Ok (Return v), m1) /\
    refresh_run t1 t2 (Resolved data) m1 = (Ok tt, m2) /\
    getData_start false (fst m2, with_now t3 (snd m2)) =
      (Ok (Return data), m3) /\
    refreshScheduled (fst m3) = false /\
    idleCallbacks (snd m3) = idleCallbacks w /\
    fetchCalls (snd m3) = S (fetchCalls w).
Proof.
  intros Hst Hv Hlate Hflag Hdata Hrange Hobs Hjson Hiso Hbefore.
  destruct (stale_read cm w t v Hst Hv Hlate Hflag)
    as (w1 & Hread & Hls1 & Hi1 & Hf1).
  destruct (refresh_run_resolved t1 t2 data (with_refreshScheduled true cm) w1
              Hrange Hobs) as (w2 & Hrun & Hls2 & Hi2 & Hf2).
  cbn [with_refreshScheduled key expirationSeconds] in Hls2.
  assert (Hst3 : stored cm (with_now t3 w2) =
                 Some (ValidDate (deadline t2 (expirationSeconds cm)), data)).
  { apply stored_written; [exact Hjson | exact Hiso |].
    cbn [with_now localStorage]. rewrite Hls2. apply lookup_insert_eq. }
  exists (with_refreshScheduled true cm, w1),
    (with_refreshScheduled false (with_refreshScheduled true cm), w2),
    (with_refreshScheduled false (with_refreshScheduled true cm),
     after_lookup (with_refreshScheduled false (with_refreshScheduled true cm))
       (with_now t3 w2)).
  split; [exact Hread|]. split; [exact Hrun|]. cbn [fst snd]. split.
  - apply fresh_read with (t := deadline t2 (expirationSeconds cm));
      [|exact Hdata | exact Hbefore].
    rewrite <- Hst3. apply stored_ext; reflexivity.
  - rewrite after_lookup_idleCallbacks, after_lookup_fetchCalls.
    cbn [with_refreshScheduled refreshScheduled with_now idleCallbacks
      fetchCalls].
    rewrite Hi2, Hf2, Hi1, Hf1. auto.
Qed.

(** X8.  A refresh that fails is tried again at the next read.  After the
    expired read that scheduled it and the run in which its fetch was
    rejected, the entry is the one that was stored: the next
    [getData(false)] returns the same stale value and schedules a refresh
    again, exactly one. *)
Theorem failed_refresh_is_retried_at_the_next_read
  (cm : CacheManager) (w : World) (t : Z) (v : JSValue) (e : Exn)
  (t1 t2 t3 : Z) :
  stored cm w = Some (ValidDate t, v) ->
  ToBoolean v = true ->
  t < now w ->
  refreshScheduled cm = false ->
  t < t3 ->
  exists m1 m2 m3,
    getData_start false (cm, w) = (Ok (Return v), m1) /\
    refresh_run t1 t2 (Rejected e) m1 = (Ok tt, m2) /\
    refreshScheduled (fst m2) = false /\
    idleCallbacks (snd m2) = idleCallbacks w /\
    getData_start false (fst m2, with_now t3 (snd m2)) = (Ok (Return v), m3) /\
    refreshScheduled (fst m3) = true /\
    idleCallbacks (snd m3) = S (idleCallbacks w) /\
    localStorage (snd m3) = localStorage w.
Proof.
  intros Hst Hv Hlate Hflag Hlate3.
  destruct (stale_read cm w t v Hst Hv Hlate Hflag)
    as (w1 & Hread & Hls1 & Hi1 & Hf1).
  destruct (refresh_run_rejected t1 t2 e (with_refreshScheduled true cm) w1)
    as (w2 & Hrun & Hls2 & Hi2 & Hf2).
  assert (Hst3 : stored (with_refreshScheduled false
                           (with_refreshScheduled true cm)) (with_now t3 w2) =
                 Some (ValidDate t, v)).
  { rewrite <- Hst. apply stored_ext; [reflexivity|].
    cbn [with_now localStorage]. rewrite Hls2, Hls1. reflexivity. }
  destruct (stale_read _ _ t v Hst3 Hv Hlate3 eq_refl)
    as (w3 & Hread3 & Hls3 & Hi3 & Hf3).
  cbn [with_now localStorage idleCallbacks] in Hls3, Hi3.
  eexists _, _, _.
  split; [exact Hread|]. split; [exact Hrun|]. cbn [fst snd].
  split; [reflexivity|]. split; [rewrite Hi2, Hi1; reflexivity|].
  split; [exact Hread3|]. cbn [fst snd].
  split; [reflexivity|]. split; [rewrite Hi3, Hi2, Hi1; reflexivity|].
  rewrite Hls3, Hls2, Hls1. reflexivity.
Qed.


(** ** Calls that overlap *)

(** X17.  The TTL that counts is the one in force when the entry is
    written.  A call of [getData] awaits its fetch, [updateExpiration(n)]
    is called meanwhile, and the fetch resolves with [data] while the clock
    reads [t]: the entry is written with expiration [t] plus the new TTL
    [n]. *)
Theorem ttl_change_applies_to_a_fetch_in_flight
  (reload : bool) (cm : CacheManager) (w : World) (n : Z) (data : JSValue)
  (t : Z) :
  fst (getData_start reload (cm, w)) = Ok AwaitFetch ->
  Z.abs (deadline t n) <= maxTime ->
  exists w1 w2 w3,
    getData_start reload (cm, w) = (Ok AwaitFetch, (cm, w1)) /\
    updateExpiration n (cm, w1) = (Ok tt, (with_expirationSeconds n cm, w2)) /\
    getData_resume (Resolved data) (with_expirationSeconds n cm, with_now t w2) =
      (Ok data, (with_expirationSeconds n cm, w3)) /\
    localStorage w3 = <[key cm := written t n data]> (localStorage w1).
Proof.
  intros Hawait Hrange.
  destruct (getData_start_await reload cm w Hawait) as (w1 & Hstart & _).
  exists w1. eexists. eexists.
  split; [exact Hstart|]. split; [apply updateExpiration_run|].
  rewrite getData_resume_run, setCache_cases.
  cbn [with_now now with_expirationSeconds expirationSeconds].
  destruct (Z.leb_spec (Z.abs (deadline t n)) maxTime); [|lia].
  split; [reflexivity|].
  match goal with
  | |- context [cached ?c data ?w0] =>
      destruct (cached_spec c data w0) as (-> & _)
  end.
  cbn [with_now now localStorage with_expirationSeconds expirationSeconds key].
  rewrite logged_localStorage. reflexivity.
Qed.

(** X18.  Misses are not merged.  Two calls of [getData(false)] in a row
    on a store with nothing under the key both call the fetch function;
    when the first fetch resolves with [data1] at time [t1] and the second
    with [data2] at time [t2], both calls return what they fetched and
    the store holds the entry of the second: the last write wins. *)
Theorem overlapping_misses_fetch_twice
  (cm : CacheManager) (w : World) (data1 data2 : JSValue) (t1 t2 : Z) :
  truthy_item (localStorage w !! key cm) = None ->
  Z.abs (deadline t1 (expirationSeconds cm)) <= maxTime ->
  Z.abs (deadline t2 (expirationSeconds cm)) <= maxTime ->
  exists w1 w2 w3 w4,
    getData_start false (cm, w) = (Ok AwaitFetch, (cm, w1)) /\
    getData_start false (cm, w1) = (Ok AwaitFetch, (cm, w2)) /\
    fetchCalls w2 = S (S (fetchCalls w)) /\
    getData_resume (Resolved data1) (cm, with_now t1 w2) = (Ok data1, (cm, w3)) /\
    getData_resume (Resolved data2) (cm, with_now t2 w3) = (Ok data2, (cm, w4)) /\
    localStorage w4 =
      <[key cm := written t2 (expirationSeconds cm) data2]> (localStorage w).
Proof.
  intros Hcold Hr1 Hr2.
  exists (with_fetchCalls S w), (with_fetchCalls S (with_fetchCalls S w)),
    (cached cm data1 (with_now t1 (with_fetchCalls S (with_fetchCalls S w)))),
    (cached cm data2
       (with_now t2
          (cached cm data1
             (with_now t1 (with_fetchCalls S (with_fetchCalls S w)))))).
  split; [exact (getData_start_no_item cm w Hcold)|].
  split; [exact (getData_start_no_item cm (with_fetchCalls S w) Hcold)|].
  split; [reflexivity|].
  rewrite !getData_resume_run, !setCache_cases. cbn [with_now now].
  destruct (Z.leb_spec (Z.abs (deadline t1 (expirationSeconds cm))) maxTime);
    [|lia].
  destruct (Z.leb_spec (Z.abs (deadline t2 (expirationSeconds cm))) maxTime);
    [|lia].
  split; [reflexivity|]. split; [reflexivity|].
  match goal with
  | |- localStorage (cached cm data2 ?w0) = _ =>
      destruct (cached_spec cm data2 w0) as (-> & _)
  end.
  cbn [with_now now localStorage].
  match goal with
  | |- context [localStorage (cached cm data1 ?w0)] =>
      destruct (cached_spec cm data1 w0) as (-> & _)
  end.
  cbn [with_now with_fetchCalls now localStorage].
  apply insert_insert_eq.
Qed.

(** ** The component *)

Lemma updateExpirationDisplay_run cm w :
  updateExpirationDisplay (cm, w) =
  (Ok match truthy_item (localStorage w !! CACHE_KEY) with
      | Some s =>
          match entry_of s with
          | Some (d, _) =>
              match format_opt d with
              | Some hhmmss => hhmmss
              | None => "Invalid"
              end
          | None => "Invalid"
          end
      | None => "Not set"
      end, (cm, w)).
Proof.
  unfold updateExpirationDisplay, localStorage_getItem.
  rewrite bind_run. cbn [gets fst snd].
  destruct (truthy_item _) as [s|]; [|reflexivity].
  unfold try_catch, entry_of, parse. rewrite bind_run.
  destruct (JSON_parse s) as [cacheJSON|]; cbn [ret throw]; [|reflexivity].
  rewrite bind_run. unfold prop.
  destruct (getProp cacheJSON "expiration") as [e|x] eqn:He; [|reflexivity].
  assert (Hv : exists v, getProp cacheJSON "value" = Ok v).
  { destruct cacheJSON; cbn in *; try discriminate; eauto. }
  destruct Hv as [v ->]. rewrite format_run.
  destruct (format_opt (Date_of e)); reflexivity.
Qed.

(** X14.  The component and the class agree on the stored form.  After a
    [setCache] of the instance that manages [CACHE_KEY], on a platform that
    reads the entry back, [updateExpirationDisplay] shows the time that
    [setCache] put in its log line, that of write time + TTL, and changes
    nothing. *)
Theorem display_shows_the_written_expiration
  (cm : CacheManager) (w : World) (data : JSValue) (m1 : Machine) :
  key cm = CACHE_KEY ->
  setCache data (cm, w) = (Ok tt, m1) ->
  JSON_roundtrip
    (cacheEntry (toISOString (deadline (now w) (expirationSeconds cm))) data) ->
  ISO_roundtrip (deadline (now w) (expirationSeconds cm)) ->
  updateExpirationDisplay m1 =
    (Ok (format_time (deadline (now w) (expirationSeconds cm))), m1) /\
  snd m1 =
    logged cm ("Cache updated. New expiration: "
               +:+ format_time (deadline (now w) (expirationSeconds cm)))
      (with_localStorage
         (insert (key cm) (written (now w) (expirationSeconds cm) data)) w).
Proof.
  intros Hkey Hwrite Hjson Hiso.
  rewrite setCache_cases in Hwrite.
  destruct (Z.abs _ <=? maxTime); [|discriminate].
  injection Hwrite as <-. split; [|reflexivity].
  rewrite updateExpirationDisplay_run.
  destruct (cached_spec cm data w) as (Hls & _).
  assert (Hst : stored cm (cached cm data w) =
                Some (ValidDate (deadline (now w) (expirationSeconds cm)), data)).
  { apply stored_written; [exact Hjson | exact Hiso |].
    rewrite Hls. apply lookup_insert_eq. }
  unfold stored in Hst. rewrite Hkey in Hst.
  destruct (truthy_item _) as [s|]; [|discriminate].
  rewrite Hst. reflexivity.
Qed.

(** X15.  What the component shows when there is no usable entry: [Invalid]
    for a text that [JSON.parse] rejects or reads as [null], [Not set]
    when the key is absent or holds the empty string.  It never throws and
    never writes. *)
Theorem display_without_a_usable_entry
  (cm : CacheManager) (w : World) (s : string) :
  localStorage w !! CACHE_KEY = Some s ->
  s <> "" ->
  JSON_parse s = None \/ JSON_parse s = Some JNull ->
  updateExpirationDisplay (cm, w) = (Ok "Invalid", (cm, w)) /\
  updateExpirationDisplay (cm, with_localStorage (delete CACHE_KEY) w) =
    (Ok "Not set", (cm, with_localStorage (delete CACHE_KEY) w)) /\
  updateExpirationDisplay (cm, with_localStorage (insert CACHE_KEY "") w) =
    (Ok "Not set", (cm, with_localStorage (insert CACHE_KEY "") w)).
Proof.
  intros Hl Hs Hparse. rewrite !updateExpirationDisplay_run.
  cbn [with_localStorage localStorage].
  rewrite lookup_delete_eq, lookup_insert_eq, Hl. cbn [truthy_item].
  destruct (String.eqb_spec s ""); [contradiction|].
  unfold entry_of. destruct Hparse as [-> | ->]; auto.
Qed.

(** X16.  The effect that runs when the component mounts clears the entry
    before it calls [getData(false)]: whatever the store held, also a
    valid entry that is not expired, the call misses and calls the fetch
    function. *)
Theorem mount_always_fetches (cm : CacheManager) (w : World) :
  key cm = CACHE_KEY ->
  exists w1,
    mountEffect_start (cm, w) = (Ok AwaitFetch, (cm, w1)) /\
    localStorage w1 = delete CACHE_KEY (localStorage w) /\
    fetchCalls w1 = S (fetchCalls w) /\
    idleCallbacks w1 = idleCallbacks w.
Proof.
  intros Hkey. unfold mountEffect_start, localStorage_removeItem, addLog.
  rewrite bind_run. cbn [set_world modify fst snd].
  rewrite bind_run. cbn [set_world modify fst snd].
  match goal with
  | |- context [getData_start false (cm, ?w0)] =>
      assert (Hquiet : getData_start false (cm, w0) =
                       (Ok AwaitFetch, (cm, with_fetchCalls S w0)))
  end.
  { apply getData_start_no_item.
    cbn [with_onLogCalls with_localStorage localStorage].
    rewrite Hkey, lookup_delete_eq. reflexivity. }
  rewrite Hquiet. eexists. split; [reflexivity|].
  cbn [with_fetchCalls with_onLogCalls with_localStorage localStorage
    fetchCalls idleCallbacks]. auto.
Qed.

End More.

(** * The scenario, run *)

#[local] Existing Instance Ref.platform.

Example scenario_store :
  localStorage (snd Scenario.first) !! "MyDataCache" =
  Some Scenario.V1_text.
Proof. vm_compute. reflexivity. Qed.

Example scenario_t2 :
  getData_start false (Scenario.at_time 2000 Scenario.first) =
  (Ok (Return Scenario.V1),
   (Scenario.cm,
    logged Scenario.cm "Cache hit. Returning cached data. Expiration: 00:00:05"
      (with_now 2000 (snd Scenario.first)))).
Proof. vm_compute. reflexivity. Qed.

Example scenario_t6 :
  getData_start false (Scenario.at_time 6000 Scenario.first) =
  (Ok (Return Scenario.V1),
   (with_refreshScheduled true Scenario.cm,
    with_idleCallbacks S
      (logged Scenario.cm
         "Cache expired (expired at: 00:00:05). Scheduling background refresh."
         (logged Scenario.cm
            "Cache hit. Returning cached data. Expiration: 00:00:05"
            (with_now 6000 (snd Scenario.first)))))).
Proof. vm_compute. reflexivity. Qed.

Example scenario_refresh :
  refreshScheduled (fst (Scenario.refreshed (Resolved Scenario.V2))) = false /\
  idleCallbacks (snd (Scenario.refreshed (Resolved Scenario.V2))) = 0%nat /\
  fetchCalls (snd (Scenario.refreshed (Resolved Scenario.V2))) = 2%nat /\
  stored Scenario.cm (snd (Scenario.refreshed (Resolved Scenario.V2))) =
    Some (ValidDate 12000, Scenario.V2) /\
  onBackgroundRefreshCalls (snd (Scenario.refreshed (Resolved Scenario.V2))) =
    [Scenario.V2].
Proof. vm_compute. repeat split; reflexivity. Qed.

Example scenario_refresh_failure :
  refreshScheduled (fst (Scenario.refreshed (Rejected (Reason "offline")))) = false /\
  stored Scenario.cm (snd (Scenario.refreshed (Rejected (Reason "offline")))) =
    Some (ValidDate 5000, Scenario.V1) /\
  consoleError (snd (Scenario.refreshed (Rejected (Reason "offline")))) =
    [Reason "offline"] /\
  onBackgroundRefreshCalls (snd (Scenario.refreshed (Rejected (Reason "offline")))) =
    [].
Proof. vm_compute. repeat split; reflexivity. Qed.

(** C1, as stated, fails on the code.  The entry is written at time 0 with
    TTL 5 s.  Read at time 5000 ms, which is write time + TTL, [V1] is
    returned and no refresh is registered: the test of line 75 is a strict
    [>].  Read at time 6000 ms by an instance that has a refresh pending,
    [V1] is returned and no callback is added either. *)
Lemma no_refresh_at_the_expiration_time :
  setCache Scenario.V1 (Scenario.cm, Scenario.world0) = (Ok tt, Scenario.wrote) /\
  localStorage (snd Scenario.wrote) !! "MyDataCache" =
    Some Scenario.V1_text /\
  5000 >= 0 + 5 * 1000 /\
  getData_start false (Scenario.at_time 5000 Scenario.wrote) =
    (Ok (Return Scenario.V1),
     (Scenario.cm,
      logged Scenario.cm "Cache hit. Returning cached data. Expiration: 00:00:05"
        (with_now 5000 (snd Scenario.wrote)))) /\
  idleCallbacks
    (snd (snd (getData_start false (Scenario.at_time 5000 Scenario.wrote)))) <>
    S (idleCallbacks (snd Scenario.wrote)) /\
  fst (getData_start false
         (Scenario.pending (Scenario.at_time 6000 Scenario.wrote))) =
    Ok (Return Scenario.V1) /\
  idleCallbacks
    (snd (snd (getData_start false
                 (Scenario.pending (Scenario.at_time 6000 Scenario.wrote))))) <>
    S (idleCallbacks (snd Scenario.wrote)).
Proof. vm_compute. repeat split; congruence. Qed.

(** ** The theorems at the scenario *)

Lemma expiration_boundary_witness :
  exists cm' w',
    getData_start false (Scenario.at_time 6000 Scenario.wrote) =
      (Ok (Return Scenario.V1), (cm', w')) /\
    fetchCalls w' = fetchCalls (with_now 6000 (snd Scenario.wrote)) /\
    localStorage w' = localStorage (with_now 6000 (snd Scenario.wrote)) /\
    if now (with_now 6000 (snd Scenario.wrote))
       <=? deadline (now Scenario.world0) (expirationSeconds Scenario.cm)
    then cm' = Scenario.cm /\
         idleCallbacks w' = idleCallbacks (with_now 6000 (snd Scenario.wrote))
    else refreshScheduled cm' = true /\
         idleCallbacks w' =
           (idleCallbacks (with_now 6000 (snd Scenario.wrote))
            + if refreshScheduled Scenario.cm then 0 else 1)%nat.
Proof.
  refine (expiration_boundary Scenario.cm Scenario.world0 Scenario.V1
            Scenario.wrote Scenario.cm (with_now 6000 (snd Scenario.wrote))
            _ _ _ _ _ _).
  - vm_compute. reflexivity.
  - reflexivity.
  - split; vm_compute; [discriminate | reflexivity].
  - vm_compute. reflexivity.
  - reflexivity.
  - vm_compute. reflexivity.
Defined.

Lemma write_then_read_round_trip_witness :
  getData_start false (Scenario.at_time 2000 Scenario.wrote_myData) =
    (Ok (Return Scenario.myData),
     (Scenario.cm,
      after_lookup Scenario.cm (with_now 2000 (snd Scenario.wrote_myData))))
  /\
  getData_run false (Rejected (Reason "offline")) 2500
    (Scenario.at_time 2000 Scenario.wrote_myData) =
    (Ok Scenario.myData,
     (Scenario.cm,
      after_lookup Scenario.cm (with_now 2000 (snd Scenario.wrote_myData)))).
Proof.
  refine (write_then_read_round_trip Scenario.cm Scenario.world0
            Scenario.myData Scenario.wrote_myData Scenario.cm
            (with_now 2000 (snd Scenario.wrote_myData))
            (Rejected (Reason "offline")) 2500 _ _ _ _ _ _ _).
  - vm_compute. reflexivity.
  - reflexivity.
  - split; vm_compute; [discriminate | reflexivity].
  - vm_compute. reflexivity.
  - reflexivity.
  - vm_compute. reflexivity.
  - vm_compute. reflexivity.
Defined.

Lemma invalid_expiration_never_expires_witness :
  (forall t, date_gt (ValidDate t) InvalidDate = false) /\
  forall t, exists w',
    getData_start false
      (Scenario.cm,
       with_now t
         (snd Scenario.undated))
      = (Ok (Return Scenario.V1), (Scenario.cm, w')) /\
    idleCallbacks w' =
      idleCallbacks
        (snd Scenario.undated) /\
    fetchCalls w' =
      fetchCalls
        (snd Scenario.undated) /\
    localStorage w' =
      localStorage
        (snd Scenario.undated).
Proof.
  refine (invalid_expiration_never_expires Scenario.cm
            (snd Scenario.undated)
            Scenario.V1 _ _).
  - vm_compute. reflexivity.
  - reflexivity.
Defined.

Lemma at_most_one_refresh_witness :
  (forall cm' w',
     scheduleRefresh (with_refreshScheduled true cm', w') =
     (Ok tt, (with_refreshScheduled true cm', w'))) /\
  exists cm1 w1 cm2 w2,
    getData_start false (Scenario.at_time 6000 Scenario.first) =
      (Ok (Return Scenario.V1), (cm1, w1)) /\
    getData_start false (cm1, with_now 6001 w1) =
      (Ok (Return Scenario.V1), (cm2, w2)) /\
    refreshScheduled cm1 = true /\
    refreshScheduled cm2 = true /\
    idleCallbacks w1 =
      (idleCallbacks (with_now 6000 (snd Scenario.first))
       + if refreshScheduled Scenario.cm then 0 else 1)%nat /\
    idleCallbacks w2 = idleCallbacks w1.
Proof.
  refine (at_most_one_refresh Scenario.cm (with_now 6000 (snd Scenario.first))
            5000 Scenario.V1 6001 _ _ _ _).
  - vm_compute. reflexivity.
  - reflexivity.
  - vm_compute. reflexivity.
  - vm_compute. discriminate.
Defined.

Lemma falsy_value_is_a_miss_witness :
  exists w1 w2,
    getData_start false Scenario.zero = (Ok AwaitFetch, (Scenario.cm, w1)) /\
    fetchCalls w1 = S (fetchCalls (snd Scenario.zero)) /\
    idleCallbacks w1 = idleCallbacks (snd Scenario.zero) /\
    getData_run false (Resolved Scenario.V2) 1500 (Scenario.cm, snd Scenario.zero) =
      (Ok Scenario.V2, (Scenario.cm, w2)) /\
    localStorage w2 =
      <[key Scenario.cm :=
          written 1500 (expirationSeconds Scenario.cm) Scenario.V2]>
        (localStorage (snd Scenario.zero)).
Proof.
  refine (falsy_value_is_a_miss Scenario.cm (snd Scenario.zero)
            (ValidDate 32472144000000) (JNumber 0) Scenario.V2 1500 _ _ _).
  - vm_compute. reflexivity.
  - reflexivity.
  - vm_compute. discriminate.
Defined.

Lemma malformed_entry_is_a_miss_witness :
  exists w1 w2 w2',
    getData_start false (Scenario.cm, snd Scenario.garbage) =
      (Ok AwaitFetch, (Scenario.cm, w1)) /\
    fetchCalls w1 = S (fetchCalls (snd Scenario.garbage)) /\
    idleCallbacks w1 = idleCallbacks (snd Scenario.garbage) /\
    getData_run false (Resolved Scenario.V2) 1500
      (Scenario.cm, snd Scenario.garbage) = (Ok Scenario.V2, (Scenario.cm, w2)) /\
    localStorage w2 =
      <[key Scenario.cm :=
          written 1500 (expirationSeconds Scenario.cm) Scenario.V2]>
        (localStorage (snd Scenario.garbage)) /\
    getData_run false (Resolved Scenario.V2) 1500
      (Scenario.cm,
       with_localStorage (delete (key Scenario.cm)) (snd Scenario.garbage)) =
      (Ok Scenario.V2, (Scenario.cm, w2')) /\
    localStorage w2' = localStorage w2 /\
    fetchCalls w2' = fetchCalls w2 /\
    idleCallbacks w2' = idleCallbacks w2.
Proof.
  refine (malformed_entry_is_a_miss Scenario.cm (snd Scenario.garbage)
            "{oops" Scenario.V2 1500 _ _ _).
  - vm_compute. reflexivity.
  - vm_compute. reflexivity.
  - vm_compute. discriminate.
Defined.

Lemma reload_fetches_fresh_witness :
  (exists w1 w2,
     getData_start true (Scenario.cm, with_now 2000 (snd Scenario.first)) =
       (Ok AwaitFetch, (Scenario.cm, w1)) /\
     localStorage w1 =
       delete (key Scenario.cm)
         (localStorage (with_now 2000 (snd Scenario.first))) /\
     fetchCalls w1 = S (fetchCalls (with_now 2000 (snd Scenario.first))) /\
     idleCallbacks w1 = idleCallbacks (with_now 2000 (snd Scenario.first)) /\
     getData_run true (Resolved Scenario.V2) 2500
       (Scenario.cm, with_now 2000 (snd Scenario.first)) =
       (Ok Scenario.V2, (Scenario.cm, w2)) /\
     localStorage w2 =
       <[key Scenario.cm :=
           written 2500 (expirationSeconds Scenario.cm) Scenario.V2]>
         (localStorage (with_now 2000 (snd Scenario.first)))) /\
  forall m, exists m',
    getData_resume (Resolved Scenario.V2) m = (Ok Scenario.V2, m') \/
    getData_resume (Resolved Scenario.V2) m = (Throw RangeError, m').
Proof.
  refine (reload_fetches_fresh Scenario.cm (with_now 2000 (snd Scenario.first))
            Scenario.V2 2500 _).
  vm_compute. discriminate.
Defined.

Lemma updateExpiration_is_not_retroactive_witness :
  updateExpiration 60 (Scenario.cm, snd Scenario.first) =
    (Ok tt,
     (with_expirationSeconds 60 Scenario.cm,
      logged Scenario.cm ("Expiration seconds updated to " +:+ Number_toString 60)
        (snd Scenario.first))) /\
  localStorage
    (logged Scenario.cm ("Expiration seconds updated to " +:+ Number_toString 60)
       (snd Scenario.first)) =
    localStorage (snd Scenario.first) /\
  stored (with_expirationSeconds 60 Scenario.cm)
    (logged Scenario.cm ("Expiration seconds updated to " +:+ Number_toString 60)
       (snd Scenario.first)) =
    stored Scenario.cm (snd Scenario.first) /\
  exists w'',
    setCache Scenario.V2
      (with_expirationSeconds 60 Scenario.cm, with_now 3000 (snd Scenario.first)) =
      (Ok tt, (with_expirationSeconds 60 Scenario.cm, w'')) /\
    localStorage w'' =
      <[key Scenario.cm :=
          JSON_stringify
            (cacheEntry
               (toISOString (now (with_now 3000 (snd Scenario.first)) + 60 * 1000))
               Scenario.V2)]>
        (localStorage (with_now 3000 (snd Scenario.first))).
Proof.
  refine (updateExpiration_is_not_retroactive 60 Scenario.cm
            (snd Scenario.first) (with_now 3000 (snd Scenario.first))
            Scenario.V2 _).
  vm_compute. discriminate.
Defined.

(** ** More of the class, at explicit inputs *)

Lemma refresh_success_stores_and_notifies_witness :
  exists w',
    refreshCallback_resume (Resolved Tour.V2)
      (Tour.cm, Tour.world Tour.store_V1 7000) =
      (Ok tt, (with_refreshScheduled false Tour.cm, w')) /\
    localStorage w' =
      <[key Tour.cm :=
          written (now (Tour.world Tour.store_V1 7000))
            (expirationSeconds Tour.cm) Tour.V2]>
        (localStorage (Tour.world Tour.store_V1 7000)) /\
    onBackgroundRefreshCalls w' =
      observed Tour.cm Tour.V2
        (onBackgroundRefreshCalls (Tour.world Tour.store_V1 7000)) /\
    consoleError w' = consoleError (Tour.world Tour.store_V1 7000).
Proof.
  refine (refresh_success_stores_and_notifies Tour.cm
            (Tour.world Tour.store_V1 7000) Tour.V2 _ _).
  - vm_compute. discriminate.
  - reflexivity.
Defined.


Lemma refresh_out_of_range_stores_nothing_witness :
  exists w',
    refreshCallback_resume (Resolved Tour.V2)
      (Tour.cm_forever, Tour.world Tour.store_V1 7000) =
      (Ok tt, (with_refreshScheduled false Tour.cm_forever, w')) /\
    localStorage w' = localStorage (Tour.world Tour.store_V1 7000) /\
    onBackgroundRefreshCalls w' =
      onBackgroundRefreshCalls (Tour.world Tour.store_V1 7000) /\
    consoleError w' =
      consoleError (Tour.world Tour.store_V1 7000) ++ [RangeError].
Proof.
  refine (refresh_out_of_range_stores_nothing Tour.cm_forever
            (Tour.world Tour.store_V1 7000) Tour.V2 _).
  vm_compute. reflexivity.
Defined.

Lemma at_most_one_refresh_outstanding_witness :
  outstanding Tour.finish =
  (if refreshScheduled (fst (machine Tour.finish)) then 1 else 0)%nat.
Proof.
  refine (at_most_one_refresh_outstanding "MyDataCache" 5
            (Some (fun _ => None)) true (Tour.world ∅ 0) Tour.events
            Tour.finish _ _).
  - reflexivity.
  - vm_compute. reflexivity.
Defined.

Lemma stale_then_refreshed_then_fresh_witness :
  exists m1 m2 m3,
    getData_start false (Tour.cm, Tour.world Tour.store_V1 6000) =
      (Ok (Return Tour.V1), m1) /\
    refresh_run 6200 7000 (Resolved Tour.V2) m1 = (Ok tt, m2) /\
    getData_start false (fst m2, with_now 12000 (snd m2)) =
      (Ok (Return Tour.V2), m3) /\
    refreshScheduled (fst m3) = false /\
    idleCallbacks (snd m3) = idleCallbacks (Tour.world Tour.store_V1 6000) /\
    fetchCalls (snd m3) = S (fetchCalls (Tour.world Tour.store_V1 6000)).
Proof.
  refine (stale_then_refreshed_then_fresh Tour.cm
            (Tour.world Tour.store_V1 6000) 5000 Tour.V1 Tour.V2
            6200 7000 12000 _ _ _ _ _ _ _ _ _ _).
  - vm_compute. reflexivity.
  - reflexivity.
  - vm_compute. reflexivity.
  - reflexivity.
  - reflexivity.
  - vm_compute. discriminate.
  - reflexivity.
  - split; vm_compute; [discriminate | reflexivity].
  - vm_compute. reflexivity.
  - vm_compute. discriminate.
Defined.

Lemma failed_refresh_is_retried_at_the_next_read_witness :
  exists m1 m2 m3,
    getData_start false (Tour.cm, Tour.world Tour.store_V1 6000) =
      (Ok (Return Tour.V1), m1) /\
    refresh_run 6200 7000 (Rejected (Reason "offline")) m1 = (Ok tt, m2) /\
    refreshScheduled (fst m2) = false /\
    idleCallbacks (snd m2) = idleCallbacks (Tour.world Tour.store_V1 6000) /\
    getData_start false (fst m2, with_now 8000 (snd m2)) =
      (Ok (Return Tour.V1), m3) /\
    refreshScheduled (fst m3) = true /\
    idleCallbacks (snd m3) = S (idleCallbacks (Tour.world Tour.store_V1 6000)) /\
    localStorage (snd m3) = localStorage (Tour.world Tour.store_V1 6000).
Proof.
  refine (failed_refresh_is_retried_at_the_next_read Tour.cm
            (Tour.world Tour.store_V1 6000) 5000 Tour.V1 (Reason "offline")
            6200 7000 8000 _ _ _ _ _).
  - vm_compute. reflexivity.
  - reflexivity.
  - vm_compute. reflexivity.
  - reflexivity.
  - vm_compute. reflexivity.
Defined.


Lemma non_object_json_is_a_miss_witness :
  exists w1,
    getData_start false (Tour.cm, Tour.world (Tour.store_of "[1,2]") 0) =
      (Ok AwaitFetch, (Tour.cm, w1)) /\
    fetchCalls w1 = S (fetchCalls (Tour.world (Tour.store_of "[1,2]") 0)) /\
    idleCallbacks w1 = idleCallbacks (Tour.world (Tour.store_of "[1,2]") 0) /\
    localStorage w1 = localStorage (Tour.world (Tour.store_of "[1,2]") 0).
Proof.
  refine (non_object_json_is_a_miss Tour.cm
            (Tour.world (Tour.store_of "[1,2]") 0) "[1,2]"
            (JArray [JNumber 1; JNumber 2]) _ _ _).
  - vm_compute. reflexivity.
  - vm_compute. reflexivity.
  - reflexivity.
Defined.

Lemma absent_or_empty_item_fetches_quietly_witness :
  getData_start false (Tour.cm, Tour.world (Tour.store_of "") 0) =
  (Ok AwaitFetch,
   (Tour.cm, with_fetchCalls S (Tour.world (Tour.store_of "") 0))).
Proof.
  refine (absent_or_empty_item_fetches_quietly Tour.cm
            (Tour.world (Tour.store_of "") 0) _).
  right. vm_compute. reflexivity.
Defined.

Lemma getData_out_of_range_fails_witness :
  exists w1,
    getData_start true (Tour.cm_forever, Tour.world Tour.store_V1 0) =
      (Ok AwaitFetch, (Tour.cm_forever, w1)) /\
    fetchCalls w1 = S (fetchCalls (Tour.world Tour.store_V1 0)) /\
    getData_run true (Resolved Tour.V2) 0
      (Tour.cm_forever, Tour.world Tour.store_V1 0) =
      (Throw RangeError, (Tour.cm_forever, with_now 0 w1)).
Proof.
  refine (getData_out_of_range_fails true Tour.cm_forever
            (Tour.world Tour.store_V1 0) Tour.V2 0 _ _).
  - vm_compute. reflexivity.
  - vm_compute. reflexivity.
Defined.

Lemma display_shows_the_written_expiration_witness :
  updateExpirationDisplay Tour.wrote =
    (Ok (format_time (deadline (now (Tour.world ∅ 0))
                        (expirationSeconds Tour.cm))), Tour.wrote) /\
  snd Tour.wrote =
    logged Tour.cm
      ("Cache updated. New expiration: "
       +:+ format_time (deadline (now (Tour.world ∅ 0))
                          (expirationSeconds Tour.cm)))
      (with_localStorage
         (insert (key Tour.cm)
            (written (now (Tour.world ∅ 0)) (expirationSeconds Tour.cm)
               Tour.V1))
         (Tour.world ∅ 0)).
Proof.
  refine (display_shows_the_written_expiration Tour.cm (Tour.world ∅ 0)
            Tour.V1 Tour.wrote _ _ _ _).
  - reflexivity.
  - vm_compute. reflexivity.
  - split; vm_compute; [discriminate | reflexivity].
  - vm_compute. reflexivity.
Defined.

Lemma display_without_a_usable_entry_witness :
  updateExpirationDisplay (Tour.cm, Tour.world (Tour.store_of "{oops") 0) =
    (Ok "Invalid", (Tour.cm, Tour.world (Tour.store_of "{oops") 0)) /\
  updateExpirationDisplay
    (Tour.cm,
     with_localStorage (delete CACHE_KEY) (Tour.world (Tour.store_of "{oops") 0)) =
    (Ok "Not set",
     (Tour.cm,
      with_localStorage (delete CACHE_KEY)
        (Tour.world (Tour.store_of "{oops") 0))) /\
  updateExpirationDisplay
    (Tour.cm,
     with_localStorage (insert CACHE_KEY "")
       (Tour.world (Tour.store_of "{oops") 0)) =
    (Ok "Not set",
     (Tour.cm,
      with_localStorage (insert CACHE_KEY "")
        (Tour.world (Tour.store_of "{oops") 0))).
Proof.
  refine (display_without_a_usable_entry Tour.cm
            (Tour.world (Tour.store_of "{oops") 0) "{oops" _ _ _).
  - vm_compute. reflexivity.
  - discriminate.
  - left. vm_compute. reflexivity.
Defined.

Lemma mount_always_fetches_witness :
  exists w1,
    mountEffect_start (Tour.cm, Tour.world Tour.store_V1 2000) =
      (Ok AwaitFetch, (Tour.cm, w1)) /\
    localStorage w1 =
      delete CACHE_KEY (localStorage (Tour.world Tour.store_V1 2000)) /\
    fetchCalls w1 = S (fetchCalls (Tour.world Tour.store_V1 2000)) /\
    idleCallbacks w1 = idleCallbacks (Tour.world Tour.store_V1 2000).
Proof.
  refine (mount_always_fetches Tour.cm (Tour.world Tour.store_V1 2000) _).
  reflexivity.
Defined.

Lemma ttl_change_applies_to_a_fetch_in_flight_witness :
  exists w1 w2 w3,
    getData_start false (Tour.cm, Tour.world ∅ 0) =
      (Ok AwaitFetch, (Tour.cm, w1)) /\
    updateExpiration 60 (Tour.cm, w1) =
      (Ok tt, (with_expirationSeconds 60 Tour.cm, w2)) /\
    getData_resume (Resolved Tour.V1)
      (with_expirationSeconds 60 Tour.cm, with_now 3000 w2) =
      (Ok Tour.V1, (with_expirationSeconds 60 Tour.cm, w3)) /\
    localStorage w3 =
      <[key Tour.cm := written 3000 60 Tour.V1]> (localStorage w1).
Proof.
  refine (ttl_change_applies_to_a_fetch_in_flight false Tour.cm
            (Tour.world ∅ 0) 60 Tour.V1 3000 _ _).
  - vm_compute. reflexivity.
  - vm_compute. discriminate.
Defined.

Lemma overlapping_misses_fetch_twice_witness :
  exists w1 w2 w3 w4,
    getData_start false (Tour.cm, Tour.world ∅ 0) =
      (Ok AwaitFetch, (Tour.cm, w1)) /\
    getData_start false (Tour.cm, w1) = (Ok AwaitFetch, (Tour.cm, w2)) /\
    fetchCalls w2 = S (S (fetchCalls (Tour.world ∅ 0))) /\
    getData_resume (Resolved Tour.V1) (Tour.cm, with_now 5000 w2) =
      (Ok Tour.V1, (Tour.cm, w3)) /\
    getData_resume (Resolved Tour.V2) (Tour.cm, with_now 5001 w3) =
      (Ok Tour.V2, (Tour.cm, w4)) /\
    localStorage w4 =
      <[key Tour.cm := written 5001 (expirationSeconds Tour.cm) Tour.V2]>
        (localStorage (Tour.world ∅ 0)).
Proof.
  refine (overlapping_misses_fetch_twice Tour.cm (Tour.world ∅ 0)
            Tour.V1 Tour.V2 5000 5001 _ _ _).
  - vm_compute. reflexivity.
  - vm_compute. discriminate.
  - vm_compute. discriminate.
Defined.
